(** * phy: manual clustering session (phy/cluster/manual/session.py)

    A shallow embedding of [ViewManager] and [Session] together with the
    collaborators the session drives ([Clustering], [ClusterMetadata],
    [Selector], [GlobalHistory]).  The session methods are stateful and may
    raise; they are written in a small state-and-exception monad over the
    session object. *)

From stdpp Require Import gmap strings list sorting.

Open Scope Z_scope.

(** ** Shared vocabulary *)

(** A spike is an index into the spike arrays, a cluster an integer label. *)
Abbreviation SpikeId := nat (only parsing).
Abbreviation ClusterId := Z (only parsing).

(** Python exceptions that can travel through the session. *)
Inductive exn : Type :=
| ValueError
| InvalidOperation
| UnknownCluster
| OutOfRange
| IndexError
| AssertionError
| NotImplementedError.

#[global] Instance exn_eq_dec : EqDecision exn.
Proof. solve_decision. Defined.

(** The result of a call: a returned value or a raised exception. *)
Inductive outcome (A : Type) : Type :=
| Ok (a : A)
| Raise (e : exn).

Arguments Ok {A} a.
Arguments Raise {A} e.

(** The diff that describes one mutation.  [Metadata] is the kind of the
    update that accompanies a metadata change. *)
Inductive Kind : Type := Load | Select | Cluster | Metadata.

Record Update : Type := mkUpdate {
  added : gset Z;
  removed : gset Z;
  affected_spikes : gset nat;
  kind : Kind
}.

(** What [GlobalHistory.undo] and [GlobalHistory.redo] hand back: the update
    of the reverted or reapplied action, or the signal that the cursor is at
    a bound of the stack. *)
Inductive HistoryResult : Type :=
| NoMoreHistory
| Done (up : Update).

(** ** Clustering *)

Module Clustering.

(** Modelled from the spec: the [Clustering] class (phy/cluster/manual/
    clustering.py) is not part of the sources at hand.  A revertible
    clustering action keeps, for each affected spike, the cluster it had
    before the operation, and the newly allocated cluster id. *)
Record Action : Type := mkAction {
  old_clusters : list (nat * Z);
  new_id : Z
}.

(** Modelled from the spec: the state of a [Clustering] object, absent from
    the sources.  It owns the partition and the next-id allocator; since the
    session records the object itself in the global history, the object also
    carries the actions it can revert and reapply. *)
Record t : Type := mk {
  spike_clusters : list Z;
  next_id : Z;
  undo_stack : list Action;
  redo_stack : list Action
}.

(** Modelled from the spec: the allocator of the absent [Clustering] starts
    at [max(existing ids) + 1]; for an empty vector it starts at [0]. *)
Definition first_free_id (sc : list Z) : Z :=
  match sc with
  | [] => 0
  | c :: rest => foldr Z.max c rest + 1
  end.

(** Modelled from the spec: the constructor [Clustering(spike_clusters)]. *)
Definition new (sc : list Z) : t :=
  {| spike_clusters := sc; next_id := first_free_id sc;
     undo_stack := []; redo_stack := [] |}.

(** Modelled from the spec: the live cluster ids are the image of the
    partition; [cluster_labels] lists them in increasing order. *)
Definition live (sc : list Z) : gset Z := list_to_set sc.

Definition cluster_labels (c : t) : list Z :=
  merge_sort Z.le (remove_dups (spike_clusters c)).

(** The spikes whose current cluster is one of [ids], in spike order. *)
Definition spikes_in (ids : list Z) (sc : list Z) : list nat :=
  fst <$> filter (λ p : nat * Z, p.2 ∈ ids) (imap pair sc).

(** In-place assignment [spike_clusters[spikes] = c]. *)
Definition assign (spikes : list nat) (c : Z) (sc : list Z) : list Z :=
  foldr (λ i acc, <[i := c]> acc) sc spikes.

(** Restoring the recorded pre-operation cluster of each affected spike. *)
Definition restore (old : list (nat * Z)) (sc : list Z) : list Z :=
  foldr (λ (p : nat * Z) acc, <[p.1 := p.2]> acc) sc old.

(** The current cluster of each spike of [spikes]. *)
Definition snapshot (spikes : list nat) (sc : list Z) : list (nat * Z) :=
  omap (λ i, (λ c, (i, c)) <$> sc !! i) spikes.

(** The update between two partitions that differ on [spikes]. *)
Definition diff (before after : list Z) (spikes : list nat) : Update :=
  {| added := live after ∖ live before;
     removed := live before ∖ live after;
     affected_spikes := list_to_set spikes;
     kind := Cluster |}.

(** Moving [spikes] to a freshly allocated cluster and recording the
    action; shared by merge and split. *)
Definition reassign (spikes : list nat) (c : t) : t :=
  let new := next_id c in
  {| spike_clusters := assign spikes new (spike_clusters c);
     next_id := new + 1;
     undo_stack := mkAction (snapshot spikes (spike_clusters c)) new
                     :: undo_stack c;
     redo_stack := [] |}.

(** Modelled from the spec: [Clustering.merge] of the absent class.  It needs
    at least two distinct ids, all live; every argument is checked before
    the partition is written. *)
Definition merge (ids : list Z) (c : t) : outcome (Update * t) :=
  if bool_decide (length (remove_dups ids) < 2)%nat then Raise InvalidOperation
  else if bool_decide (Forall (λ i, i ∈ spike_clusters c) ids) then
    let spikes := spikes_in ids (spike_clusters c) in
    Ok ({| added := {[ next_id c ]};
            removed := list_to_set ids;
            affected_spikes := list_to_set spikes;
            kind := Cluster |},
         reassign spikes c)
  else Raise UnknownCluster.

(** Modelled from the spec: [Clustering.split] of the absent class.  It needs
    a non-empty set of spikes, all in range. *)
Definition split (spikes : list nat) (c : t) : outcome (Update * t) :=
  if bool_decide (spikes = []) then Raise InvalidOperation
  else if bool_decide
            (Forall (λ i, (i < length (spike_clusters c))%nat) spikes) then
    let c' := reassign spikes c in
    Ok (diff (spike_clusters c) (spike_clusters c') spikes, c')
  else Raise OutOfRange.

(** Modelled from the spec: reversal of the latest action of the absent
    class: every affected spike gets its prior cluster back; the allocator
    is not rewound, so ids are never reused. *)
Definition undo (c : t) : Update * t :=
  match undo_stack c with
  | [] => (diff (spike_clusters c) (spike_clusters c) [], c)
  | a :: rest =>
    let sc := restore (old_clusters a) (spike_clusters c) in
    (diff (spike_clusters c) sc (fst <$> old_clusters a),
     {| spike_clusters := sc; next_id := next_id c;
        undo_stack := rest; redo_stack := a :: redo_stack c |})
  end.

(** Modelled from the spec: reapplying the latest reverted action of the
    absent class. *)
Definition redo (c : t) : Update * t :=
  match redo_stack c with
  | [] => (diff (spike_clusters c) (spike_clusters c) [], c)
  | a :: rest =>
    let sc := assign (fst <$> old_clusters a) (new_id a) (spike_clusters c) in
    (diff (spike_clusters c) sc (fst <$> old_clusters a),
     {| spike_clusters := sc; next_id := next_id c;
        undo_stack := a :: undo_stack c; redo_stack := rest |})
  end.

End Clustering.

(** ** ClusterMetadata *)

Module ClusterMetadata.

(** A property value: a group name or a colour index. *)
Inductive value : Type :=
| VStr (s : string)
| VInt (z : Z).

#[global] Instance value_eq_dec : EqDecision value.
Proof. solve_decision. Defined.

(** Modelled from the spec: a revertible metadata action of the absent
    [ClusterMetadata] class (phy/cluster/manual/cluster_metadata.py): the
    property, the prior value of each cluster, and the value written. *)
Record Action : Type := mkAction {
  property : string;
  prior : list (Z * value);
  written : value
}.

(** Modelled from the spec: the state of a [ClusterMetadata] object, absent
    from the sources: a property map per cluster id, the palette function
    behind the default colour, and the actions the object can revert and
    reapply (the session records the object itself in the global history). *)
Record t : Type := mk {
  data : gmap Z (gmap string value);
  palette : Z → Z;
  undo_stack : list Action;
  redo_stack : list Action
}.

(** Modelled from the spec: the properties the absent class declares. *)
Definition declared (prop : string) : bool :=
  bool_decide (prop = "group") || bool_decide (prop = "color").

(** Modelled from the spec: the declared defaults of the absent class,
    [group -> "unsorted"] and [color -> palette(cluster)]. *)
Definition default_value (m : t) (prop : string) (cluster : Z) : option value :=
  if bool_decide (prop = "group") then Some (VStr "unsorted")
  else if bool_decide (prop = "color") then Some (VInt (palette m cluster))
  else None.

Definition default_entry (m : t) (cluster : Z) : gmap string value :=
  {[ "group" := VStr "unsorted"; "color" := VInt (palette m cluster) ]}.

(** The entry of a cluster, the default one when the cluster has none. *)
Definition entry (m : t) (cluster : Z) : gmap string value :=
  default (default_entry m cluster) (data m !! cluster).

(** The stored value of a property, or its declared default when unset. *)
Definition lookup (m : t) (cluster : Z) (prop : string) : option value :=
  match entry m cluster !! prop with
  | Some v => Some v
  | None => default_value m prop cluster
  end.

(** Lazy creation of the entry of a cluster on first use. *)
Definition touch (cluster : Z) (m : t) : t :=
  {| data := <[cluster := entry m cluster]> (data m); palette := palette m;
     undo_stack := undo_stack m; redo_stack := redo_stack m |}.

(** Modelled from the spec: [cluster_metadata[cluster][prop]] of the absent
    class.  The query creates the entry of the cluster if it has none; it
    fails only for a property without a declared default. *)
Definition get (cluster : Z) (prop : string) (m : t) : outcome value * t :=
  match lookup m cluster prop with
  | Some v => (Ok v, touch cluster m)
  | None => (Raise InvalidOperation, m)
  end.

(** Writing one property of one cluster. *)
Definition write (prop : string) (v : value) (cluster : Z)
    (d : gmap Z (gmap string value)) (dflt : gmap string value)
  : gmap Z (gmap string value) :=
  <[cluster := <[prop := v]> (default dflt (d !! cluster))]> d.

Definition write_all (m : t) (prop : string) (cvs : list (Z * value))
  : gmap Z (gmap string value) :=
  foldl (λ d (cv : Z * value), write prop cv.2 cv.1 d (default_entry m cv.1))
        (data m) cvs.

(** Modelled from the spec: [ClusterMetadata.set] of the absent class.  An
    unknown property is rejected before anything is written; otherwise every
    cluster gets the value and the prior values are recorded. *)
Definition set (clusters : list Z) (prop : string) (v : value) (m : t)
  : outcome Action * t :=
  if negb (declared prop) then (Raise InvalidOperation, m)
  else
    let a := {| property := prop;
                prior := omap (λ c, (λ old, (c, old)) <$> lookup m c prop)
                              clusters;
                written := v |} in
    (Ok a,
     {| data := write_all m prop ((λ c, (c, v)) <$> clusters);
        palette := palette m;
        undo_stack := a :: undo_stack m; redo_stack := [] |}).

(** The update that goes with a metadata change: no cluster appears or
    disappears and no spike is reassigned. *)
Definition metadata_update : Update :=
  {| added := ∅; removed := ∅; affected_spikes := ∅; kind := Metadata |}.

(** Modelled from the spec: reversal of the latest metadata action of the
    absent class: the prior values are written back. *)
Definition undo (m : t) : Update * t :=
  match undo_stack m with
  | [] => (metadata_update, m)
  | a :: rest =>
    (metadata_update,
     {| data := write_all m (property a) (prior a); palette := palette m;
        undo_stack := rest; redo_stack := a :: redo_stack m |})
  end.

(** Modelled from the spec: reapplying the latest reverted metadata action
    of the absent class. *)
Definition redo (m : t) : Update * t :=
  match redo_stack m with
  | [] => (metadata_update, m)
  | a :: rest =>
    (metadata_update,
     {| data := write_all m (property a)
                  ((λ cv : Z * value, (cv.1, written a)) <$> prior a);
        palette := palette m;
        undo_stack := a :: undo_stack m; redo_stack := rest |})
  end.

End ClusterMetadata.

(** ** Selector *)

Module Selector.

(** Modelled from the spec: the state of a [Selector] object (phy/cluster/
    manual/selector.py, absent from the sources): the spike-to-cluster vector
    it reads, the cap on the number of selected spikes, and the selected
    clusters. *)
Record t : Type := mk {
  spike_clusters : list Z;
  n_spikes_max : nat;
  selected_clusters : list Z
}.

(** Modelled from the spec: the constructor
    [Selector(spike_clusters, n_spikes_max=...)]; nothing is selected. *)
Definition new (sc : list Z) (n_max : nat) : t :=
  {| spike_clusters := sc; n_spikes_max := n_max; selected_clusters := [] |}.

(** Modelled from the spec: the setter of [selected_clusters] of the absent
    class; a cluster id that is not live is rejected. *)
Definition set_selected_clusters (clusters : list Z) (s : t) : outcome t :=
  if bool_decide (Forall (λ c, c ∈ spike_clusters s) clusters) then
    Ok {| spike_clusters := spike_clusters s;
          n_spikes_max := n_spikes_max s;
          selected_clusters := clusters |}
  else Raise UnknownCluster.

(** Modelled from the spec: [selected_spikes] of the absent class: the spikes
    of the selected clusters in spike order, cut down to the cap.  The
    sub-sampling rule is left open by the specification; the rule here keeps
    the first [n_spikes_max] spikes. *)
Definition selected_spikes (s : t) : list nat :=
  take (n_spikes_max s)
       (Clustering.spikes_in (selected_clusters s) (spike_clusters s)).

End Selector.

(** ** GlobalHistory *)

Module GlobalHistory.

(** Modelled from the spec: the state of a [GlobalHistory] object (phy/
    cluster/manual/_history.py, absent from the sources): the recorded
    actions in order and a cursor; the cursor equals the number of actions
    when the latest state is current. *)
Record t (A : Type) : Type := mk {
  items : list A;
  cursor : nat
}.

Arguments mk {A} items cursor.
Arguments items {A} _.
Arguments cursor {A} _.

Section Operations.

Context {A W : Type}.

(** Modelled from the spec: the constructor [GlobalHistory()]; the history
    starts empty. *)
Definition new : t A := {| items := []; cursor := 0 |}.

(** Modelled from the spec: [GlobalHistory.action] of the absent class: the
    redo tail, if any, is dropped, the action is appended and the cursor
    moves to the new length. *)
Definition action (a : A) (h : t A) : t A :=
  let kept :=
    if bool_decide (cursor h < length (items h))%nat
    then take (cursor h) (items h) else items h in
  {| items := kept ++ [a]; cursor := length (kept ++ [a]) |}.

(** Modelled from the spec: [GlobalHistory.undo] of the absent class.  At
    cursor 0 it returns the [NoMoreHistory] signal and touches nothing;
    otherwise it reverts the action below the cursor, through [revert], in
    the world [W] of the objects the actions refer to, and steps the cursor
    back.  The recorded actions stay as they are. *)
Definition undo (revert : A → W → Update * W) (h : t A) (w : W)
  : HistoryResult * t A * W :=
  match cursor h with
  | O => (NoMoreHistory, h, w)
  | S k =>
    match items h !! k with
    | Some a =>
      let '(up, w') := revert a w in
      (Done up, {| items := items h; cursor := k |}, w')
    | None => (NoMoreHistory, h, w)
    end
  end.

(** Modelled from the spec: [GlobalHistory.redo] of the absent class.  With
    the cursor at the end it returns [NoMoreHistory]; otherwise it reapplies
    the action at the cursor and steps the cursor forward. *)
Definition redo (reapply : A → W → Update * W) (h : t A) (w : W)
  : HistoryResult * t A * W :=
  match items h !! cursor h with
  | Some a =>
    let '(up, w') := reapply a w in
    (Done up, {| items := items h; cursor := S (cursor h) |}, w')
  | None => (NoMoreHistory, h, w)
  end.

End Operations.

End GlobalHistory.

(** ** Stateful computations that may raise *)

(** A method over a mutable object of type [S]: it returns or raises, and in
    both cases leaves the object in some state (what was written before an
    exception stays written). *)
Definition M (S A : Type) : Type := S → outcome A * S.

Definition ret {S A : Type} (a : A) : M S A := λ s, (Ok a, s).

Definition raise {S A : Type} (e : exn) : M S A := λ s, (Raise e, s).

Definition bind {S A B : Type} (c : M S A) (k : A → M S B) : M S B :=
  λ s, match c s with
       | (Ok a, s') => k a s'
       | (Raise e, s') => (Raise e, s')
       end.

Definition gets {S A : Type} (f : S → A) : M S A := λ s, (Ok (f s), s).

Definition modify {S : Type} (f : S → S) : M S unit := λ s, (Ok tt, f s).

Declare Scope method_scope.
Delimit Scope method_scope with method.

Notation "x <- c ;; k" := (bind c (λ x, k))
  (at level 100, c at next level, right associativity) : method_scope.
Notation "c ;; k" := (bind c (λ _, k))
  (at level 100, right associativity) : method_scope.

(** [if cond: body] *)
Definition when {S : Type} (cond : bool) (body : M S unit) : M S unit :=
  if cond then body else ret tt.

(** [for x in xs: body(x)] where the body mutates the element it visits; an
    exception leaves the loop at once. *)
Fixpoint for_each {S : Type} (body : M S unit) (xs : list S)
  : outcome unit * list S :=
  match xs with
  | [] => (Ok tt, [])
  | x :: rest =>
    match body x with
    | (Ok _, x') =>
      let '(o, rest') := for_each body rest in (o, x' :: rest')
    | (Raise e, x') => (Raise e, x' :: rest)
    end
  end.

(** NumPy indexing of an array by an array of indices, [arr[idx]]; an index
    out of bounds raises [IndexError]. *)
Definition fancy_index {A : Type} (arr : list A) (idx : list nat)
  : option (list A) :=
  mapM (λ i, arr !! i) idx.

(** ** Views *)

Module View.

(** A reference to the [spike_clusters] array of a [Clustering] object; the
    object is named by its identity. *)
Inductive array_ref : Type := SpikeClustersOf (obj : nat).

(** A reference to the metadata object bound to [self.cluster_metadata]. *)
Inductive metadata_ref : Type := SessionMetadata.

(** The attributes of [view.visual] that the session writes.
    [spike_clusters] and [cluster_metadata] are bound to objects of the
    session, not to copies: what is written to those objects afterwards is
    seen through the visual.  The other attributes are bound to arrays that
    nothing writes to (the probe positions, the results of array
    indexing, the list of selected spikes). *)
Record Visual : Type := mkVisual {
  spike_clusters : option array_ref;
  cluster_metadata : option metadata_ref;
  channel_positions : option (list (Z * Z));
  waveforms : option (list (list Z));
  masks : option (list (list Z));
  spike_labels : option (list nat)
}.

(** What a visual shows: the contents of what its attributes are bound
    to. *)
Record Shown : Type := mkShown {
  shown_spike_clusters : option (list Z);
  shown_cluster_metadata : option ClusterMetadata.t;
  shown_channel_positions : option (list (Z * Z));
  shown_waveforms : option (list (list Z));
  shown_masks : option (list (list Z));
  shown_spike_labels : option (list nat)
}.

(** A view object: its identity, whether it is a [WaveformView], its visual,
    how many times [update()] was invoked on it and how many times
    [close()]. *)
Record t : Type := mk {
  ident : nat;
  is_waveform_view : bool;
  visual : Visual;
  updates : nat;
  closes : nat
}.

Definition with_visual (f : Visual → Visual) (view : t) : t :=
  {| ident := ident view; is_waveform_view := is_waveform_view view;
     visual := f (visual view); updates := updates view;
     closes := closes view |}.

(** [WaveformView()] *)
Definition new_waveform_view (id : nat) : t :=
  {| ident := id; is_waveform_view := true;
     visual := mkVisual None None None None None None;
     updates := 0; closes := 0 |}.

(** [view.update()] *)
Definition update : M t unit :=
  modify (λ view,
    {| ident := ident view; is_waveform_view := is_waveform_view view;
       visual := visual view; updates := S (updates view);
       closes := closes view |}).

(** [view.close()] *)
Definition close : M t unit :=
  modify (λ view,
    {| ident := ident view; is_waveform_view := is_waveform_view view;
       visual := visual view; updates := updates view;
       closes := S (closes view) |}).

End View.

(** ** View manager *)

Module ViewManager.

(** [self._views] *)
Record t : Type := mk { _views : list View.t }.

(** [ViewManager.__init__] *)
Definition new : t := {| _views := [] |}.

(** [ViewManager.register]: [self._views.append(view)]. *)
Definition register (view : View.t) : M t unit :=
  modify (λ vm, {| _views := _views vm ++ [view] |}).

(** [list.remove]: drops the first element that is the given object. *)
Fixpoint remove (id : nat) (views : list View.t) : list View.t :=
  match views with
  | [] => []
  | v :: rest =>
    if bool_decide (View.ident v = id) then rest else v :: remove id rest
  end.

(** [close()] on the object with the given identity, as it is seen through
    the list: every occurrence of the object in the list is that one
    object. *)
Definition close_object (id : nat) (views : list View.t) : list View.t :=
  (λ v, if bool_decide (View.ident v = id) then (View.close v).2 else v)
    <$> views.

(** [ViewManager.unregister]: the view is closed, then its first occurrence
    is dropped from the list if it is there; further occurrences, being the
    same object, stay in the list closed.  The closed view is handed back,
    as the caller still holds it. *)
Definition unregister (view : View.t) : M t View.t :=
  λ vm,
    let view' := snd (View.close view) in
    if bool_decide (View.ident view ∈ View.ident <$> _views vm)
    then (Ok view',
          {| _views := remove (View.ident view)
                         (close_object (View.ident view) (_views vm)) |})
    else (Ok view', vm).

(** The [views] property. *)
Definition views (vm : t) : list View.t := _views vm.

End ViewManager.

(** ** The model *)

Module BaseModel.

(** The attributes of a [BaseModel] instance (phy/io/base_model.py, absent
    from the sources) that the session reads. *)
Record t : Type := mk {
  spike_clusters : list Z;
  cluster_metadata : ClusterMetadata.t;
  waveforms : list (list Z);
  masks : list (list Z);
  probe_positions : list (Z * Z)
}.

End BaseModel.

(** A Python value passed as the [model] argument of the constructor. *)
Inductive pyobj : Type :=
| PyNone
| PyInt (z : Z)
| PyStr (s : string)
| PyList (xs : list Z)
| PyBaseModel (m : BaseModel.t).

(** [isinstance(o, BaseModel)], with the instance when it is one. *)
Definition as_BaseModel (o : pyobj) : option BaseModel.t :=
  match o with
  | PyBaseModel m => Some m
  | _ => None
  end.

(** ** Session *)

Module Session.

Open Scope method_scope.

(** What the session records in the global history: the object that carried
    out the action, [self.clustering] or [self.cluster_metadata].  A
    [Clustering] object is named by its identity, since a later load binds
    [self.clustering] to a new object while the history still refers to the
    old one. *)
Inductive process : Type :=
| PClustering (obj : nat)
| PClusterMetadata.

#[global] Instance process_eq_dec : EqDecision process.
Proof. solve_decision. Defined.

(** The attributes of a [Session] object.  [cluster_metadata] and the
    [cluster_metadata] of [model] are one Python object: every write goes to
    both ([put_cluster_metadata]).  [detached] holds the [Clustering] objects
    of earlier loads, by identity; the identity of the object bound to
    [clustering] is the length of [detached].  [next_view] is a lower bound
    for the identity of the next view object the session creates: an
    identity, once given to a view, is not given to another one, since the
    caller may still hold the first. *)
Record t : Type := mk {
  _global_history : GlobalHistory.t process;
  _view_manager : ViewManager.t;
  model : BaseModel.t;
  selector : Selector.t;
  clustering : Clustering.t;
  cluster_metadata : ClusterMetadata.t;
  detached : list Clustering.t;
  next_view : nat
}.

Definition clustering_obj (s : t) : nat := length (detached s).

Definition put_global_history (h : GlobalHistory.t process) (s : t) : t :=
  {| _global_history := h; _view_manager := _view_manager s;
     model := model s; selector := selector s; clustering := clustering s;
     cluster_metadata := cluster_metadata s; detached := detached s;
     next_view := next_view s |}.

Definition put_views (views : list View.t) (s : t) : t :=
  {| _global_history := _global_history s;
     _view_manager := ViewManager.mk views;
     model := model s; selector := selector s; clustering := clustering s;
     cluster_metadata := cluster_metadata s; detached := detached s;
     next_view := next_view s |}.

Definition put_selector (sel : Selector.t) (s : t) : t :=
  {| _global_history := _global_history s; _view_manager := _view_manager s;
     model := model s; selector := sel; clustering := clustering s;
     cluster_metadata := cluster_metadata s; detached := detached s;
     next_view := next_view s |}.

Definition put_clustering (c : Clustering.t) (s : t) : t :=
  {| _global_history := _global_history s; _view_manager := _view_manager s;
     model := model s; selector := selector s; clustering := c;
     cluster_metadata := cluster_metadata s; detached := detached s;
     next_view := next_view s |}.

Definition put_detached (cs : list Clustering.t) (s : t) : t :=
  {| _global_history := _global_history s; _view_manager := _view_manager s;
     model := model s; selector := selector s; clustering := clustering s;
     cluster_metadata := cluster_metadata s; detached := cs;
     next_view := next_view s |}.

Definition put_next_view (n : nat) (s : t) : t :=
  {| _global_history := _global_history s; _view_manager := _view_manager s;
     model := model s; selector := selector s; clustering := clustering s;
     cluster_metadata := cluster_metadata s; detached := detached s;
     next_view := n |}.

Definition put_cluster_metadata (md : ClusterMetadata.t) (s : t) : t :=
  {| _global_history := _global_history s; _view_manager := _view_manager s;
     model :=
       {| BaseModel.spike_clusters := BaseModel.spike_clusters (model s);
          BaseModel.cluster_metadata := md;
          BaseModel.waveforms := BaseModel.waveforms (model s);
          BaseModel.masks := BaseModel.masks (model s);
          BaseModel.probe_positions := BaseModel.probe_positions (model s) |};
     selector := selector s; clustering := clustering s;
     cluster_metadata := md; detached := detached s;
     next_view := next_view s |}.

(** Running a method of a collaborator on the attribute that holds it. *)
Definition on_views {A : Type} (c : list View.t → outcome A * list View.t)
  : M t A :=
  λ s, let '(o, views) := c (ViewManager.views (_view_manager s)) in
       (o, put_views views s).

Definition on_view_manager {A : Type} (c : M ViewManager.t A) : M t A :=
  λ s, let '(o, vm) := c (_view_manager s) in
       (o, put_views (ViewManager._views vm) s).

Definition on_cluster_metadata {A : Type} (c : M ClusterMetadata.t A)
  : M t A :=
  λ s, let '(o, md) := c (cluster_metadata s) in
       (o, put_cluster_metadata md s).

(** The array that a reference names: the partition of the clustering bound
    to [self.clustering], or of a clustering of an earlier load. *)
Definition spike_clusters_of (self : t) (r : View.array_ref)
  : option (list Z) :=
  match r with
  | View.SpikeClustersOf obj =>
    if bool_decide (obj = clustering_obj self)
    then Some (Clustering.spike_clusters (clustering self))
    else Clustering.spike_clusters <$> detached self !! obj
  end.

(** What the visual of a view shows, in a given state of the session. *)
Definition shown (self : t) (view : View.t) : View.Shown :=
  let vis := View.visual view in
  {| View.shown_spike_clusters :=
       View.spike_clusters vis ≫= spike_clusters_of self;
     View.shown_cluster_metadata :=
       (λ _, cluster_metadata self) <$> View.cluster_metadata vis;
     View.shown_channel_positions := View.channel_positions vis;
     View.shown_waveforms := View.waveforms vis;
     View.shown_masks := View.masks vis;
     View.shown_spike_labels := View.spike_labels vis |}.

(** *** Waveforms *)

(** [Session._update_waveforms_after_load] *)
Definition _update_waveforms_after_load (self : t) : M View.t unit :=
  λ view,
    if negb (View.is_waveform_view view) then (Raise AssertionError, view)
    else
      (Ok tt,
       View.with_visual (λ vis,
         {| View.spike_clusters :=
              Some (View.SpikeClustersOf (clustering_obj self));
            View.cluster_metadata := Some View.SessionMetadata;
            View.channel_positions :=
              Some (BaseModel.probe_positions (model self));
            View.waveforms := View.waveforms vis;
            View.masks := View.masks vis;
            View.spike_labels := View.spike_labels vis |}) view).

(** [Session._update_waveforms_after_select] *)
Definition _update_waveforms_after_select (self : t) : M View.t unit :=
  λ view,
    if negb (View.is_waveform_view view) then (Raise AssertionError, view)
    else
      let spikes := Selector.selected_spikes (selector self) in
      match fancy_index (BaseModel.waveforms (model self)) spikes with
      | None => (Raise IndexError, view)
      | Some waveforms =>
        let view1 :=
          View.with_visual (λ vis,
            {| View.spike_clusters := View.spike_clusters vis;
               View.cluster_metadata := View.cluster_metadata vis;
               View.channel_positions := View.channel_positions vis;
               View.waveforms := Some waveforms;
               View.masks := View.masks vis;
               View.spike_labels := View.spike_labels vis |}) view in
        match fancy_index (BaseModel.masks (model self)) spikes with
        | None => (Raise IndexError, view1)
        | Some masks =>
          (Ok tt,
           View.with_visual (λ vis,
             {| View.spike_clusters := View.spike_clusters vis;
                View.cluster_metadata := View.cluster_metadata vis;
                View.channel_positions := View.channel_positions vis;
                View.waveforms := View.waveforms vis;
                View.masks := Some masks;
                View.spike_labels := Some spikes |}) view1)
        end
      end.

(** [Session._update_waveforms_after_cluster]: only the assertion. *)
Definition _update_waveforms_after_cluster (self : t) (up : HistoryResult)
  : M View.t unit :=
  λ view,
    if negb (View.is_waveform_view view) then (Raise AssertionError, view)
    else (Ok tt, view).

(** The loop that the three controller methods share:
    [for view in self._view_manager.views:
       if isinstance(view, WaveformView): hook(view)
       view.update()] *)
Definition refresh_views (hook : t → M View.t unit) : M t unit :=
  λ self,
    on_views
      (for_each (λ view,
         (when (View.is_waveform_view view) (hook self) ;;
          View.update) view))
      self.

Definition on_clustering {A : Type}
    (c : Clustering.t → outcome (A * Clustering.t)) : M t A :=
  λ self,
    match c (clustering self) with
    | Ok (a, c') => (Ok a, put_clustering c' self)
    | Raise e => (Raise e, self)
    end.

Definition on_selector (c : Selector.t → outcome Selector.t) : M t unit :=
  λ self,
    match c (selector self) with
    | Ok sel => (Ok tt, put_selector sel self)
    | Raise e => (Raise e, self)
    end.

(** [self._global_history.action(process)] *)
Definition record (p : t → process) : M t unit :=
  modify (λ self,
    put_global_history (GlobalHistory.action (p self) (_global_history self))
                       self).

(** *** Controller *)

(** The body of [Session._update_after_load], on the attributes it reads:
    the history, the view manager and the model.  [older] are the
    [Clustering] objects that were bound to [self.clustering] before. *)
Definition load_from (h : GlobalHistory.t process) (vm : ViewManager.t)
    (m : BaseModel.t) (older : list Clustering.t) (next : nat)
  : outcome unit * t :=
  let spike_clusters := BaseModel.spike_clusters m in
  refresh_views _update_waveforms_after_load
    {| _global_history := h; _view_manager := vm; model := m;
       selector := Selector.new spike_clusters 100;
       clustering := Clustering.new spike_clusters;
       cluster_metadata := BaseModel.cluster_metadata m;
       detached := older; next_view := next |}.

(** [Session._update_after_load] *)
Definition _update_after_load : M t unit :=
  λ self,
    load_from (_global_history self) (_view_manager self) (model self)
              (detached self ++ [clustering self]) (next_view self).

(** [Session.__init__] *)
Definition __init__ (model : pyobj) : outcome t :=
  match as_BaseModel model with
  | None => Raise ValueError
  | Some m =>
    match load_from GlobalHistory.new ViewManager.new m [] 0 with
    | (Ok _, self) => Ok self
    | (Raise e, _) => Raise e
    end
  end.

(** [Session._update_after_select] *)
Definition _update_after_select : M t unit :=
  refresh_views _update_waveforms_after_select.

(** [Session._update_after_cluster].  [up] is what the caller got from its
    delegate: the update of a merge or split, or the result of the history
    call of undo and redo, which may be the [NoMoreHistory] signal. *)
Definition _update_after_cluster (up : HistoryResult) (add_to_stack : bool)
  : M t unit :=
  when add_to_stack (record (λ self, PClustering (clustering_obj self))) ;;
  refresh_views (λ self, _update_waveforms_after_cluster self up).

(** *** Public properties *)

(** [Session.cluster_labels] *)
Definition cluster_labels : M t (list Z) :=
  gets (λ self, Clustering.cluster_labels (clustering self)).

(** A list comprehension [[f(x) for x in xs]]. *)
Fixpoint comprehension {S A B : Type} (f : A → M S B) (xs : list A)
  : M S (list B) :=
  match xs with
  | [] => ret []
  | x :: rest =>
    y <- f x ;; ys <- comprehension f rest ;; ret (y :: ys)
  end.

(** [Session.cluster_colors] *)
Definition cluster_colors : M t (list ClusterMetadata.value) :=
  labels <- cluster_labels ;;
  comprehension
    (λ cluster, on_cluster_metadata (ClusterMetadata.get cluster "color"))
    labels.

(** *** Public view methods *)

(** [Session.show_clusters] builds an IPython widget from [cluster_labels]
    and [cluster_colors] and displays it; the widget is never registered
    with the view manager, and the method is left out here. *)

(** The identity of a newly created view object: it is the identity of no
    registered view and of no view the session has created before. *)
Definition fresh_ident (self : t) : nat :=
  Nat.max (next_view self)
    (S (foldr Nat.max 0%nat
          (View.ident <$> ViewManager.views (_view_manager self)))).

(** [Session.show_waveforms].  The new view is registered and then filled
    by the two hooks; the registered object and the filled one are the same
    object, so the list ends with the filled view.  The view is returned. *)
Definition show_waveforms : M t View.t :=
  λ self,
    let view := View.new_waveform_view (fresh_ident self) in
    let '(o, view') :=
      (_update_waveforms_after_load self ;;
       _update_waveforms_after_select self) view in
    let self' :=
      put_next_view (S (fresh_ident self))
        (snd (on_view_manager (ViewManager.register view') self)) in
    match o with
    | Ok _ => (Ok view', self')
    | Raise e => (Raise e, self')
    end.

(** [Session.close_view]: the view is unregistered, then closed once more;
    an occurrence of the view that is still registered is the same object
    and is closed with it. *)
Definition close_view (view : View.t) : M t View.t :=
  view1 <- on_view_manager (ViewManager.unregister view) ;;
  on_views (λ views,
    (Ok tt, ViewManager.close_object (View.ident view) views)) ;;
  ret (snd (View.close view1)).

(** *** Public clustering actions *)

(** [Session.select] *)
Definition select (clusters : list Z) : M t unit :=
  on_selector (Selector.set_selected_clusters clusters) ;;
  _update_after_select.

(** [Session.merge] *)
Definition merge (clusters : list Z) : M t unit :=
  up <- on_clustering (Clustering.merge clusters) ;;
  _update_after_cluster (Done up) true.

(** [Session.split] *)
Definition split (spikes : list nat) : M t unit :=
  up <- on_clustering (Clustering.split spikes) ;;
  _update_after_cluster (Done up) true.

(** [Session.move] *)
Definition move (clusters : list Z) (group : ClusterMetadata.value)
  : M t unit :=
  on_cluster_metadata (ClusterMetadata.set clusters "group" group) ;;
  record (λ _, PClusterMetadata).

(** The update of an object that reverts or reapplies nothing. *)
Definition no_update : Update := Clustering.diff [] [] [].

(** Calling [undo()] or [redo()] of the object a recorded process stands
    for.  An identity below [clustering_obj] names an object of an earlier
    load. *)
Definition call_process
    (on_c : Clustering.t → Update * Clustering.t)
    (on_md : ClusterMetadata.t → Update * ClusterMetadata.t)
    (p : process) (self : t) : Update * t :=
  match p with
  | PClustering obj =>
    if bool_decide (obj = clustering_obj self) then
      let '(up, c) := on_c (clustering self) in (up, put_clustering c self)
    else
      match detached self !! obj with
      | Some c0 =>
        let '(up, c) := on_c c0 in
        (up, put_detached (<[obj := c]> (detached self)) self)
      | None => (no_update, self)
      end
  | PClusterMetadata =>
    let '(up, md) := on_md (cluster_metadata self) in
    (up, put_cluster_metadata md self)
  end.

(** [self._global_history.undo()] *)
Definition history_undo : M t HistoryResult :=
  λ self,
    let '(r, h, self') :=
      GlobalHistory.undo (call_process Clustering.undo ClusterMetadata.undo)
                         (_global_history self) self in
    (Ok r, put_global_history h self').

(** [self._global_history.redo()] *)
Definition history_redo : M t HistoryResult :=
  λ self,
    let '(r, h, self') :=
      GlobalHistory.redo (call_process Clustering.redo ClusterMetadata.redo)
                         (_global_history self) self in
    (Ok r, put_global_history h self').

(** [Session.undo] *)
Definition undo : M t unit :=
  up <- history_undo ;;
  _update_after_cluster up false.

(** [Session.redo] *)
Definition redo : M t unit :=
  up <- history_redo ;;
  _update_after_cluster up false.

(** [Session.wizard_start], [wizard_next], [wizard_previous],
    [wizard_reset] *)
Definition wizard_start : M t unit := raise NotImplementedError.
Definition wizard_next : M t unit := raise NotImplementedError.
Definition wizard_previous : M t unit := raise NotImplementedError.
Definition wizard_reset : M t unit := raise NotImplementedError.

End Session.

(** ** Vocabulary of the statements *)

(** The views registered with the session. *)
Definition registered (self : Session.t) : list View.t :=
  ViewManager.views (Session._view_manager self).

(** One view after a notification: it is the same object and its [update()]
    was invoked exactly once more. *)
Definition updated_once (view view' : View.t) : Prop :=
  View.ident view' = View.ident view
  ∧ View.is_waveform_view view' = View.is_waveform_view view
  ∧ View.updates view' = S (View.updates view).

(** Every registered view was notified between the two states: the same
    views are registered, in the same order, each updated once. *)
Definition notified (before after : Session.t) : Prop :=
  Forall2 updated_once (registered before) (registered after).

(** The recorded actions of the session's history, and its cursor. *)
Definition recorded (self : Session.t) : list Session.process :=
  GlobalHistory.items (Session._global_history self).

Definition cursor (self : Session.t) : nat :=
  GlobalHistory.cursor (Session._global_history self).

(** The colour of a cluster as the metadata has it: the stored value, or the
    palette colour when none is stored. *)
Definition color_of (md : ClusterMetadata.t) (cluster : Z)
  : ClusterMetadata.value :=
  match ClusterMetadata.data md !! cluster with
  | Some props =>
    match props !! "color" with
    | Some v => v
    | None => ClusterMetadata.VInt (ClusterMetadata.palette md cluster)
    end
  | None => ClusterMetadata.VInt (ClusterMetadata.palette md cluster)
  end.

(** A hook touches nothing but the visual of the view. *)
Definition keeps_view (hook : Session.t → M View.t unit) : Prop :=
  ∀ self view o view',
    hook self view = (o, view') →
    View.ident view' = View.ident view
    ∧ View.is_waveform_view view' = View.is_waveform_view view
    ∧ View.updates view' = View.updates view.

(** A hook does not raise on a [WaveformView], in a given session. *)
Definition safe_hook (hook : Session.t → M View.t unit) (self : Session.t)
  : Prop :=
  ∀ view,
    View.is_waveform_view view = true →
    ∃ view', hook self view = (Ok tt, view').

(** One more action, [p], is on the history, on top of what was below the
    cursor; the cursor is at the end; every view was notified. *)
Definition recorded_and_notified (p : Session.process)
    (before after : Session.t) : Prop :=
  recorded after = take (cursor before) (recorded before) ++ [p]
  ∧ cursor after = length (recorded after)
  ∧ notified before after.

(** Nothing but the views differs between the two states: history,
    model, selector, clustering, metadata and earlier clustering objects are
    the same. *)
Definition only_views_differ (before after : Session.t) : Prop :=
  Session._global_history after = Session._global_history before
  ∧ Session.model after = Session.model before
  ∧ Session.selector after = Session.selector before
  ∧ Session.clustering after = Session.clustering before
  ∧ Session.cluster_metadata after = Session.cluster_metadata before
  ∧ Session.detached after = Session.detached before.

(** ** A small session to run the methods on *)

Definition example_metadata : ClusterMetadata.t :=
  {| ClusterMetadata.data := ∅;
     ClusterMetadata.palette := λ c, c `mod` 10;
     ClusterMetadata.undo_stack := [];
     ClusterMetadata.redo_stack := [] |}.

(** Five spikes in three clusters, one waveform and one mask per spike. *)
Definition example_model : BaseModel.t :=
  {| BaseModel.spike_clusters := [0; 0; 1; 1; 2];
     BaseModel.cluster_metadata := example_metadata;
     BaseModel.waveforms := [[1]; [2]; [3]; [4]; [5]];
     BaseModel.masks := [[1]; [1]; [0]; [1]; [0]];
     BaseModel.probe_positions := [(0, 0); (0, 10)] |}.

(** The state a method call leaves the session in. *)
Definition after {A : Type} (call : M Session.t A) (self : Session.t)
  : Session.t :=
  snd (call self).

(** [Session(example_model)] *)
Definition fresh_session : Session.t :=
  snd (Session.load_from GlobalHistory.new ViewManager.new example_model [] 0).

(** The same session after [show_waveforms()]: one registered view. *)
Definition viewed_session : Session.t :=
  after Session.show_waveforms fresh_session.

(** ... and after [merge([0, 1])]: one recorded action. *)
Definition merged_session : Session.t :=
  after (Session.merge [0; 1]) viewed_session.

(** ** Vocabulary of the further properties *)

(** The identities of some views, in order. *)
Definition idents (views : list View.t) : list nat := View.ident <$> views.

(** A view after a refresh that wrote nothing to it: the very same view
    with one [update()] more. *)
Definition only_updated (view view' : View.t) : Prop :=
  view' = (View.update view).2.

(** The visual of a view is bound to the partition of the clustering object
    bound to [self.clustering], resp. to the metadata object of the
    session. *)
Definition bound_to_clustering (self : Session.t) (view : View.t) : Prop :=
  View.spike_clusters (View.visual view)
  = Some (View.SpikeClustersOf (Session.clustering_obj self)).

Definition bound_to_metadata (view : View.t) : Prop :=
  View.cluster_metadata (View.visual view) = Some View.SessionMetadata.

(** What a view shows of the partition and of the metadata, in a given state
    of the session. *)
Definition shown_partition (self : Session.t) (view : View.t)
  : option (list Z) :=
  View.shown_spike_clusters (Session.shown self view).

Definition shown_metadata (self : Session.t) (view : View.t)
  : option ClusterMetadata.t :=
  View.shown_cluster_metadata (Session.shown self view).

(** A view across a call that wrote nothing to it: it is the same view with
    one [update()] more, bound to the objects it was bound to; what it shows
    of the partition and of the metadata, through those objects, is what
    the session has after the call. *)
Definition refreshed_in_place (before after : Session.t)
    (view view' : View.t) : Prop :=
  only_updated view view'
  ∧ (bound_to_clustering before view →
     shown_partition after view'
     = Some (Clustering.spike_clusters (Session.clustering after)))
  ∧ (bound_to_metadata view →
     shown_metadata after view' = Some (Session.cluster_metadata after)).

(** Every clustering object named in the history exists: it is the object
    bound to [self.clustering] or one of an earlier load. *)
Definition history_refs_valid (self : Session.t) : Prop :=
  Forall (λ p, match p with
               | Session.PClustering obj =>
                 (obj ≤ Session.clustering_obj self)%nat
               | Session.PClusterMetadata => True
               end) (recorded self).

(** No clustering action of the history is one of the object bound to
    [self.clustering]. *)
Definition history_refs_stale (self : Session.t) : Prop :=
  Forall (λ p, match p with
               | Session.PClustering obj =>
                 (obj < Session.clustering_obj self)%nat
               | Session.PClusterMetadata => True
               end) (recorded self).

(** A call of a method of the session that changes it. *)
Inductive call : Type :=
| CallSelect (clusters : list Z)
| CallMerge (clusters : list Z)
| CallSplit (spikes : list nat)
| CallMove (clusters : list Z) (group : ClusterMetadata.value)
| CallUndo
| CallRedo
| CallUpdateAfterLoad
| CallShowWaveforms
| CallCloseView (view : View.t)
| CallClusterColors.

(** The session after a call, whether the call returned or raised. *)
Definition run (c : call) (self : Session.t) : Session.t :=
  match c with
  | CallSelect clusters => after (Session.select clusters) self
  | CallMerge clusters => after (Session.merge clusters) self
  | CallSplit spikes => after (Session.split spikes) self
  | CallMove clusters group => after (Session.move clusters group) self
  | CallUndo => after Session.undo self
  | CallRedo => after Session.redo self
  | CallUpdateAfterLoad => after Session._update_after_load self
  | CallShowWaveforms => after Session.show_waveforms self
  | CallCloseView view => after (Session.close_view view) self
  | CallClusterColors => after Session.cluster_colors self
  end.

(** The sessions one can get: constructed over a model, then driven by any
    sequence of calls. *)
Inductive reachable : Session.t → Prop :=
| reachable_init (m : BaseModel.t) (self : Session.t) :
    Session.__init__ (PyBaseModel m) = Ok self → reachable self
| reachable_call (c : call) (self : Session.t) :
    reachable self → reachable (run c self).

(** What a reload does to one view: a [WaveformView] gets the partition, the
    metadata and the probe positions of the reloaded session (its visual is
    bound to the new clustering and to the metadata, and shows them), any
    other view keeps its visual; in both cases the waveforms, masks and
    spike labels on the view are the ones it had. *)
Definition reloaded_view (self' : Session.t) (view view' : View.t) : Prop :=
  View.waveforms (View.visual view') = View.waveforms (View.visual view)
  ∧ View.masks (View.visual view') = View.masks (View.visual view)
  ∧ View.spike_labels (View.visual view')
    = View.spike_labels (View.visual view)
  ∧ if View.is_waveform_view view
    then View.spike_clusters (View.visual view')
         = Some (View.SpikeClustersOf (Session.clustering_obj self'))
         ∧ View.shown_spike_clusters (Session.shown self' view')
           = Some (Clustering.spike_clusters (Session.clustering self'))
         ∧ View.shown_cluster_metadata (Session.shown self' view')
           = Some (Session.cluster_metadata self')
         ∧ View.channel_positions (View.visual view')
           = Some (BaseModel.probe_positions (Session.model self'))
    else View.visual view' = View.visual view.

(** A model with a mask for the first two spikes only. *)
Definition short_model : BaseModel.t :=
  {| BaseModel.spike_clusters := [0; 0; 1; 1; 2];
     BaseModel.cluster_metadata := example_metadata;
     BaseModel.waveforms := [[1]; [2]; [3]; [4]; [5]];
     BaseModel.masks := [[1]; [1]];
     BaseModel.probe_positions := [(0, 0); (0, 10)] |}.

(** A view that is not a [WaveformView]. *)
Definition plain_view (id : nat) : View.t :=
  {| View.ident := id; View.is_waveform_view := false;
     View.visual := View.mkVisual None None None None None None;
     View.updates := 0; View.closes := 0 |}.

(** [Session(short_model)], a plain view registered by hand, then
    [show_waveforms()]. *)
Definition short_session : Session.t :=
  after Session.show_waveforms
    (after (Session.on_view_manager (ViewManager.register (plain_view 7)))
       (Session.load_from GlobalHistory.new ViewManager.new short_model [] 0).2).

(** ** The refresh loop *)

Section Loop.

Context {S : Type} (body : M S unit).

(** A loop that returns has run its body, successfully, on every element. *)
Lemma for_each_returns (xs xs' : list S) :
  for_each body xs = (Ok tt, xs') →
  Forall2 (λ x x', body x = (Ok tt, x')) xs xs'.
Proof.
  revert xs'. induction xs as [|x rest IH]; intros xs' H; simpl in H.
  - inversion H. constructor.
  - destruct (body x) as [[[]|e] x'] eqn:Hx; [|discriminate].
    destruct (for_each body rest) as [o rest'] eqn:Hrest.
    inversion H; subst. constructor; [done | by apply IH].
Qed.

(** A body that never raises makes a loop that never raises. *)
Lemma for_each_total (xs : list S) :
  (∀ x, ∃ x', body x = (Ok tt, x')) →
  ∃ xs', for_each body xs = (Ok tt, xs').
Proof.
  intros Hbody. induction xs as [|x rest [rest' IH]]; simpl.
  - by eexists.
  - destruct (Hbody x) as [x' ->]. rewrite IH. by eexists.
Qed.

(** A loop that raises leaves as many elements as it found. *)
Lemma for_each_length (xs : list S) :
  length (for_each body xs).2 = length xs.
Proof.
  induction xs as [|x rest IH]; simpl; [done|].
  destruct (body x) as [[[]|e] x']; simpl; [|done].
  destruct (for_each body rest) as [o rest']; simpl in *. by rewrite IH.
Qed.

End Loop.

Lemma load_hook_keeps_view : keeps_view Session._update_waveforms_after_load.
Proof.
  intros self view o view' H. unfold Session._update_waveforms_after_load in H.
  destruct (View.is_waveform_view view) eqn:Hw; simpl in H;
    inversion H; subst; simpl; by rewrite ?Hw.
Qed.

Lemma select_hook_keeps_view :
  keeps_view Session._update_waveforms_after_select.
Proof.
  intros self view o view' H.
  unfold Session._update_waveforms_after_select in H.
  destruct (View.is_waveform_view view) eqn:Hw; simpl in H;
    repeat case_match; inversion H; subst; simpl; by rewrite ?Hw.
Qed.

Lemma cluster_hook_keeps_view up :
  keeps_view (λ self, Session._update_waveforms_after_cluster self up).
Proof.
  intros self view o view' H.
  unfold Session._update_waveforms_after_cluster in H.
  destruct (View.is_waveform_view view) eqn:Hw; simpl in H;
    inversion H; subst; simpl; by rewrite ?Hw.
Qed.

Lemma load_hook_safe self :
  safe_hook Session._update_waveforms_after_load self.
Proof.
  intros view Hw. unfold Session._update_waveforms_after_load.
  rewrite Hw. simpl. by eexists.
Qed.

Lemma cluster_hook_safe up self :
  safe_hook (λ self, Session._update_waveforms_after_cluster self up) self.
Proof.
  intros view Hw. unfold Session._update_waveforms_after_cluster.
  rewrite Hw. simpl. by eexists.
Qed.

(** The loop writes the views and nothing else. *)
Lemma refresh_views_frame hook self o self' :
  Session.refresh_views hook self = (o, self') →
  self' = Session.put_views (registered self') self.
Proof.
  unfold Session.refresh_views, Session.on_views. intros H.
  destruct (for_each _ _) as [o' views']. by inversion H.
Qed.

(** When the loop returns, every registered view was updated once. *)
Lemma refresh_views_returns hook self self' :
  keeps_view hook →
  Session.refresh_views hook self = (Ok tt, self') →
  notified self self'.
Proof.
  intros Hkeep H. unfold Session.refresh_views, Session.on_views in H.
  destruct (for_each _ _) as [o views'] eqn:Hloop.
  inversion H; subst. apply for_each_returns in Hloop.
  unfold notified, registered; simpl.
  eapply Forall2_impl; [exact Hloop|].
  intros view view' Hbody. simpl in Hbody.
  unfold bind, when in Hbody.
  destruct (View.is_waveform_view view) eqn:Hw.
  - destruct (hook self view) as [[[]|e] view1] eqn:Hhook; [|discriminate].
    apply Hkeep in Hhook as (Hi & Hwf & Hu).
    inversion Hbody; subst. unfold updated_once; simpl. by rewrite Hu.
  - inversion Hbody; subst. unfold updated_once; simpl. done.
Qed.

(** With a hook that cannot raise, the loop returns. *)
Lemma refresh_views_total hook self :
  safe_hook hook self →
  ∃ self', Session.refresh_views hook self = (Ok tt, self').
Proof.
  intros Hsafe. unfold Session.refresh_views, Session.on_views.
  edestruct (for_each_total
    (λ view : View.t,
       bind (when (View.is_waveform_view view) (hook self))
            (λ _, View.update) view)
    (ViewManager.views (Session._view_manager self))) as [views' Hloop].
  - intros view. unfold bind, when.
    destruct (View.is_waveform_view view) eqn:Hw.
    + destruct (Hsafe view Hw) as [view1 ->]. by eexists.
    + by eexists.
  - rewrite Hloop. by eexists.
Qed.

(** ** The history *)

(** Recording an action keeps what is below the cursor and appends exactly
    one action; the cursor ends on the new length. *)
Lemma action_items {A : Type} (a : A) (h : GlobalHistory.t A) :
  GlobalHistory.items (GlobalHistory.action a h)
  = take (GlobalHistory.cursor h) (GlobalHistory.items h) ++ [a].
Proof.
  unfold GlobalHistory.action; simpl. case_bool_decide; [done|].
  rewrite take_ge; [done | lia].
Qed.

Lemma action_cursor {A : Type} (a : A) (h : GlobalHistory.t A) :
  GlobalHistory.cursor (GlobalHistory.action a h)
  = length (GlobalHistory.items (GlobalHistory.action a h)).
Proof. done. Qed.

(** Undo and redo of the history keep the recorded actions. *)
Lemma history_undo_items {A W : Type} (revert : A → W → Update * W)
    (h : GlobalHistory.t A) (w : W) :
  GlobalHistory.items (GlobalHistory.undo revert h w).1.2
  = GlobalHistory.items h.
Proof.
  unfold GlobalHistory.undo. destruct (GlobalHistory.cursor h); [done|].
  destruct (_ !! _); [|done]. by destruct (revert _ _).
Qed.

Lemma history_redo_items {A W : Type} (reapply : A → W → Update * W)
    (h : GlobalHistory.t A) (w : W) :
  GlobalHistory.items (GlobalHistory.redo reapply h w).1.2
  = GlobalHistory.items h.
Proof.
  unfold GlobalHistory.redo. destruct (_ !! _); [|done].
  by destruct (reapply _ _).
Qed.

(** When the history signals [NoMoreHistory] it has touched nothing. *)
Lemma history_undo_no_more {A W : Type} (revert : A → W → Update * W)
    (h : GlobalHistory.t A) (w : W) :
  (GlobalHistory.undo revert h w).1.1 = NoMoreHistory →
  GlobalHistory.undo revert h w = (NoMoreHistory, h, w).
Proof.
  unfold GlobalHistory.undo. destruct (GlobalHistory.cursor h); [done|].
  destruct (_ !! _); [|done]. by destruct (revert _ _).
Qed.

Lemma history_redo_no_more {A W : Type} (reapply : A → W → Update * W)
    (h : GlobalHistory.t A) (w : W) :
  (GlobalHistory.redo reapply h w).1.1 = NoMoreHistory →
  GlobalHistory.redo reapply h w = (NoMoreHistory, h, w).
Proof.
  unfold GlobalHistory.redo. destruct (_ !! _); [|done].
  by destruct (reapply _ _).
Qed.

(** At cursor 0 there is nothing to undo; at the end nothing to redo. *)
Lemma history_undo_at_bottom {A W : Type} (revert : A → W → Update * W)
    (h : GlobalHistory.t A) (w : W) :
  GlobalHistory.cursor h = 0%nat →
  GlobalHistory.undo revert h w = (NoMoreHistory, h, w).
Proof. unfold GlobalHistory.undo. by intros ->. Qed.

Lemma history_redo_at_top {A W : Type} (reapply : A → W → Update * W)
    (h : GlobalHistory.t A) (w : W) :
  GlobalHistory.cursor h = length (GlobalHistory.items h) →
  GlobalHistory.redo reapply h w = (NoMoreHistory, h, w).
Proof.
  unfold GlobalHistory.redo. intros ->.
  by rewrite lookup_ge_None_2.
Qed.

(** ** The controller methods *)

(** Calling a recorded process leaves the history and the views alone. *)
Lemma call_process_frame on_c on_md p self :
  Session._global_history (Session.call_process on_c on_md p self).2
  = Session._global_history self
  ∧ Session._view_manager (Session.call_process on_c on_md p self).2
    = Session._view_manager self.
Proof.
  unfold Session.call_process. destruct p as [obj|].
  - case_bool_decide.
    + by destruct (on_c _).
    + destruct (_ !! _); [|done]. by destruct (on_c _).
  - by destruct (on_md _).
Qed.

(** [_update_after_cluster] never raises.  It records [self.clustering] when
    asked to, updates every view once, and writes nothing else. *)
Lemma update_after_cluster_returns up add_to_stack self :
  ∃ self',
    Session._update_after_cluster up add_to_stack self = (Ok tt, self')
    ∧ notified self self'
    ∧ self' =
      Session.put_views (registered self')
        (if add_to_stack
         then Session.put_global_history
                (GlobalHistory.action
                   (Session.PClustering (Session.clustering_obj self))
                   (Session._global_history self)) self
         else self).
Proof.
  unfold Session._update_after_cluster, bind, when, Session.record.
  destruct add_to_stack; simpl.
  - match goal with |- context [Session.refresh_views ?h ?s] =>
      destruct (refresh_views_total h s (cluster_hook_safe up s))
        as [self' Hloop] end.
    exists self'. rewrite Hloop. split; [done|]. split.
    + apply refresh_views_returns in Hloop; [|apply cluster_hook_keeps_view].
      exact Hloop.
    + by apply refresh_views_frame in Hloop.
  - destruct (refresh_views_total _ self (cluster_hook_safe up self))
      as [self' Hloop].
    exists self'. rewrite Hloop. split; [done|]. split.
    + eapply refresh_views_returns; [apply cluster_hook_keeps_view|done].
    + by apply refresh_views_frame in Hloop.
Qed.

(** ** Merge and split *)

(** What merge and split share: once the clustering has carried out the
    operation, the session records the clustering object and refreshes the
    views. *)
Lemma delegated_to_clustering
    (op : Clustering.t → outcome (Update * Clustering.t)) self up c' :
  op (Session.clustering self) = Ok (up, c') →
  ∃ self',
    (up' <- Session.on_clustering op ;;
     Session._update_after_cluster (Done up') true)%method self
    = (Ok tt, self')
    ∧ Session.clustering self' = c'
    ∧ recorded_and_notified
        (Session.PClustering (Session.clustering_obj self)) self self'.
Proof.
  intros Hop. unfold bind, Session.on_clustering. rewrite Hop.
  destruct (update_after_cluster_returns (Done up) true
              (Session.put_clustering c' self))
    as (self' & Hrun & Hnotified & Hframe).
  exists self'. split; [done|]. rewrite Hframe.
  split; [done|]. split; [|split].
  - unfold recorded, cursor; simpl. apply action_items.
  - done.
  - rewrite <- Hframe. exact Hnotified.
Qed.

(** ** Failing operations *)

(** A session call that goes through the clustering raises exactly when the
    clustering does, and then the session is as it was. *)
Lemma clustering_call_raises
    (op : Clustering.t → outcome (Update * Clustering.t)) self e self' :
  (up' <- Session.on_clustering op ;;
   Session._update_after_cluster (Done up') true)%method self
  = (Raise e, self')
  ↔ op (Session.clustering self) = Raise e ∧ self' = self.
Proof.
  unfold bind, Session.on_clustering.
  destruct (op (Session.clustering self)) as [[up c']|e0] eqn:Hop.
  - destruct (update_after_cluster_returns (Done up) true
                (Session.put_clustering c' self)) as (s & -> & _).
    split; [discriminate | intros [? _]; discriminate].
  - split.
    + intros H. by inversion H.
    + intros [H ->]. by inversion H.
Qed.

(** Setting the declared property [group] cannot fail. *)
Lemma set_group_returns clusters group md :
  ∃ a md', ClusterMetadata.set clusters "group" group md = (Ok a, md').
Proof. unfold ClusterMetadata.set. simpl. by do 2 eexists. Qed.

(** C7.  If the delegate of merge or of split raises, the session call
    raises the same error and the session object is exactly as before: no
    action on the history, no view updated, partition and metadata as they
    were.  Conversely the session call raises only then.  For move the same
    implication holds; its delegate sets the declared property [group] and
    so never raises, and neither does move. *)
Theorem failed_operation_changes_nothing (self : Session.t) (e : exn) :
  (∀ clusters self',
     Session.merge clusters self = (Raise e, self')
     ↔ Clustering.merge clusters (Session.clustering self) = Raise e
       ∧ self' = self)
  ∧ (∀ spikes self',
       Session.split spikes self = (Raise e, self')
       ↔ Clustering.split spikes (Session.clustering self) = Raise e
         ∧ self' = self)
  ∧ (∀ clusters group,
       (ClusterMetadata.set clusters "group" group
          (Session.cluster_metadata self)).1 = Raise e →
       Session.move clusters group self = (Raise e, self))
  ∧ (∀ clusters group self',
       Session.move clusters group self ≠ (Raise e, self')).
Proof.
  split; [|split; [|split]].
  - intros clusters self'. apply clustering_call_raises.
  - intros spikes self'. apply clustering_call_raises.
  - intros clusters group H.
    destruct (set_group_returns clusters group (Session.cluster_metadata self))
      as (a & md' & Hset).
    rewrite Hset in H. discriminate.
  - intros clusters group self'.
    unfold Session.move, bind, Session.on_cluster_metadata, Session.record,
      modify.
    destruct (set_group_returns clusters group (Session.cluster_metadata self))
      as (a & md' & ->).
    discriminate.
Qed.

(** Merging with a cluster that does not exist, and splitting off a spike
    that does not exist, in the example session. *)
Lemma failed_operation_changes_nothing_witness :
  Session.merge [0; 7] viewed_session = (Raise UnknownCluster, viewed_session)
  ∧ Session.split [9%nat] viewed_session = (Raise OutOfRange, viewed_session).
Proof.
  split.
  - apply (proj1 (failed_operation_changes_nothing viewed_session
                    UnknownCluster)).
    split; [vm_compute; reflexivity | reflexivity].
  - apply (proj1 (proj2 (failed_operation_changes_nothing viewed_session
                           OutOfRange))).
    split; [vm_compute; reflexivity | reflexivity].
Defined.

(** ** Undo and redo *)

(** The history calls of the session always return; they keep the recorded
    actions and the views. *)
Lemma history_undo_returns self :
  ∃ up self1,
    Session.history_undo self = (Ok up, self1)
    ∧ recorded self1 = recorded self
    ∧ registered self1 = registered self
    ∧ (up = NoMoreHistory → only_views_differ self self1).
Proof.
  unfold Session.history_undo, GlobalHistory.undo.
  destruct (GlobalHistory.cursor _) as [|k].
  { do 2 eexists. split; [done|]. by destruct self. }
  destruct (_ !! k) as [p|].
  2: { do 2 eexists. split; [done|]. by destruct self. }
  pose proof (call_process_frame Clustering.undo ClusterMetadata.undo p self)
    as [_ Hvm].
  destruct (Session.call_process _ _ p self) as [u s1]. simpl in *.
  do 2 eexists. split; [done|]. unfold registered; simpl.
  rewrite Hvm. done.
Qed.

Lemma history_redo_returns self :
  ∃ up self1,
    Session.history_redo self = (Ok up, self1)
    ∧ recorded self1 = recorded self
    ∧ registered self1 = registered self
    ∧ (up = NoMoreHistory → only_views_differ self self1).
Proof.
  unfold Session.history_redo, GlobalHistory.redo.
  destruct (_ !! _) as [p|].
  2: { do 2 eexists. split; [done|]. by destruct self. }
  pose proof (call_process_frame Clustering.redo ClusterMetadata.redo p self)
    as [_ Hvm].
  destruct (Session.call_process _ _ p self) as [u s1]. simpl in *.
  do 2 eexists. split; [done|]. unfold registered; simpl.
  rewrite Hvm. done.
Qed.

(** What undo and redo share: the result of the history call goes to
    [_update_after_cluster] with [add_to_stack=False]. *)
Lemma history_call_then_refresh (call : M Session.t HistoryResult) self :
  (∃ up self1,
     call self = (Ok up, self1)
     ∧ recorded self1 = recorded self
     ∧ registered self1 = registered self
     ∧ (up = NoMoreHistory → only_views_differ self self1)) →
  ∃ up self1 self',
    call self = (Ok up, self1)
    ∧ (up' <- call ;; Session._update_after_cluster up' false)%method self
      = (Ok tt, self')
    ∧ Session._update_after_cluster up false self1 = (Ok tt, self')
    ∧ recorded self' = recorded self
    ∧ notified self self'
    ∧ (up = NoMoreHistory → only_views_differ self self').
Proof.
  intros (up & self1 & Hcall & Hrec & Hviews & Hno).
  destruct (update_after_cluster_returns up false self1)
    as (self' & Hrun & Hnotified & Hframe).
  exists up, self1, self'. unfold bind. rewrite Hcall.
  split; [done|]. split; [done|]. split; [done|]. split; [|split].
  - rewrite Hframe, <- Hrec. done.
  - unfold notified in *. by rewrite <- Hviews.
  - intros Hup. specialize (Hno Hup). rewrite Hframe.
    unfold only_views_differ in *. simpl. exact Hno.
Qed.

(** C5.  When the history call of [Session.undo] (resp. [Session.redo])
    signals [NoMoreHistory], the session call returns without raising; the
    history, the partition, the metadata, the model and the selector are as
    before; and the no-op result is what the refresh of the views runs with:
    [update()] is invoked once on every registered view.  The history
    signals [NoMoreHistory] to undo at cursor 0 and to redo with the cursor
    at the end. *)
Theorem no_more_history_is_a_no_op (self : Session.t) :
  ((Session.history_undo self).1 = Ok NoMoreHistory →
   ∃ self',
     Session.undo self = (Ok tt, self')
     ∧ only_views_differ self self'
     ∧ notified self self')
  ∧ ((Session.history_redo self).1 = Ok NoMoreHistory →
     ∃ self',
       Session.redo self = (Ok tt, self')
       ∧ only_views_differ self self'
       ∧ notified self self')
  ∧ (cursor self = 0%nat →
     (Session.history_undo self).1 = Ok NoMoreHistory)
  ∧ (cursor self = length (recorded self) →
     (Session.history_redo self).1 = Ok NoMoreHistory).
Proof.
  split; [|split; [|split]].
  - intros Hsig.
    destruct (history_call_then_refresh _ self (history_undo_returns self))
      as (up & self1 & self' & H1 & H2 & _ & _ & H5 & H6).
    rewrite H1 in Hsig. simpl in Hsig. inversion Hsig; subst.
    exists self'. split; [exact H2|]. split; [by apply H6 | exact H5].
  - intros Hsig.
    destruct (history_call_then_refresh _ self (history_redo_returns self))
      as (up & self1 & self' & H1 & H2 & _ & _ & H5 & H6).
    rewrite H1 in Hsig. simpl in Hsig. inversion Hsig; subst.
    exists self'. split; [exact H2|]. split; [by apply H6 | exact H5].
  - intros Hc. unfold Session.history_undo.
    rewrite history_undo_at_bottom; [done | exact Hc].
  - intros Hc. unfold Session.history_redo.
    rewrite history_redo_at_top; [done | exact Hc].
Qed.

(** Undo and redo right after loading, with one view registered. *)
Lemma no_more_history_is_a_no_op_witness :
  (∃ self',
     Session.undo viewed_session = (Ok tt, self')
     ∧ only_views_differ viewed_session self'
     ∧ notified viewed_session self')
  ∧ (∃ self',
       Session.redo viewed_session = (Ok tt, self')
       ∧ only_views_differ viewed_session self'
       ∧ notified viewed_session self').
Proof.
  pose proof (no_more_history_is_a_no_op viewed_session)
    as (Hundo & Hredo & Hbottom & Htop).
  split.
  - apply Hundo. apply Hbottom. vm_compute. reflexivity.
  - apply Hredo. apply Htop. vm_compute. reflexivity.
Defined.

(** ** Move *)

(** [Session.move] always returns: the metadata carries out the change and
    the metadata object is recorded; nothing else is written. *)
Lemma move_returns self clusters group :
  ∃ a md',
    ClusterMetadata.set clusters "group" group (Session.cluster_metadata self)
    = (Ok a, md')
    ∧ Session.move clusters group self
      = (Ok tt,
         Session.put_global_history
           (GlobalHistory.action Session.PClusterMetadata
              (Session._global_history self))
           (Session.put_cluster_metadata md' self)).
Proof.
  destruct (set_group_returns clusters group (Session.cluster_metadata self))
    as (a & md' & Hset).
  exists a, md'. split; [exact Hset|].
  unfold Session.move, bind, Session.on_cluster_metadata, Session.record,
    modify.
  by rewrite Hset.
Qed.

(** ** Select *)

(** C3.  [Session.select] leaves the global history as it is, whether it
    returns or raises.  When it returns, the selector's selected clusters are
    the given ones and [update()] was invoked once on every registered
    view. *)
Theorem select_leaves_history (self : Session.t) (clusters : list Z)
    (o : outcome unit) (self' : Session.t) :
  Session.select clusters self = (o, self') →
  Session._global_history self' = Session._global_history self
  ∧ (o = Ok tt →
     Selector.selected_clusters (Session.selector self') = clusters
     ∧ notified self self').
Proof.
  unfold Session.select, bind, Session.on_selector,
    Selector.set_selected_clusters.
  case_bool_decide as Hlive.
  - intros Hrun. pose proof (refresh_views_frame _ _ _ _ Hrun) as Hframe.
    split; [by rewrite Hframe|]. intros ->.
    split; [by rewrite Hframe|].
    apply refresh_views_returns in Hrun; [|apply select_hook_keeps_view].
    exact Hrun.
  - intros Hrun. inversion Hrun; subst. split; [done | discriminate].
Qed.

(** Selecting clusters 1 and 2 in the example session. *)
Lemma select_leaves_history_witness :
  ∃ self',
    Session.select [1; 2] viewed_session = (Ok tt, self')
    ∧ Session._global_history self' = Session._global_history viewed_session
    ∧ Selector.selected_clusters (Session.selector self') = [1; 2]
    ∧ notified viewed_session self'.
Proof.
  exists (after (Session.select [1; 2]) viewed_session).
  assert (Session.select [1; 2] viewed_session
          = (Ok tt, after (Session.select [1; 2]) viewed_session)) as Hrun
    by (vm_compute; reflexivity).
  destruct (select_leaves_history viewed_session [1; 2] (Ok tt) _ Hrun)
    as [Hhistory Hrest].
  destruct (Hrest eq_refl) as [Hselected Hnotified].
  split; [exact Hrun|]. split; [exact Hhistory|].
  split; [exact Hselected | exact Hnotified].
Defined.

(** ** Loading *)

(** The body of [_update_after_load] always returns.  It builds the selector
    and the clustering over the model's vector, binds the model's metadata,
    keeps the history it was given, and updates every view once. *)
Lemma load_from_returns h vm m older next :
  ∃ self',
    Session.load_from h vm m older next = (Ok tt, self')
    ∧ Session._global_history self' = h
    ∧ Session._view_manager self' = ViewManager.mk (registered self')
    ∧ Forall2 updated_once (ViewManager.views vm) (registered self')
    ∧ Session.model self' = m
    ∧ Session.selector self'
      = Selector.new (BaseModel.spike_clusters m) 100
    ∧ Session.clustering self'
      = Clustering.new (BaseModel.spike_clusters m)
    ∧ Session.cluster_metadata self' = BaseModel.cluster_metadata m
    ∧ Session.detached self' = older.
Proof.
  unfold Session.load_from.
  match goal with |- context [Session.refresh_views ?hook ?s] =>
    destruct (refresh_views_total hook s (load_hook_safe s))
      as [self' Hloop];
    pose proof (refresh_views_frame _ _ _ _ Hloop) as Hframe;
    pose proof (refresh_views_returns _ _ _ load_hook_keeps_view Hloop)
      as Hnotified
  end.
  exists self'. split; [exact Hloop|].
  repeat split; try exact Hnotified; rewrite Hframe; done.
Qed.

(** C9.  A load, at construction or later, always returns with a selector
    built over the spike-to-cluster vector of the model, with nothing
    selected and a cap of exactly 100 spikes. *)
Theorem selector_is_built_with_cap_100 :
  (∀ m : BaseModel.t,
     ∃ self,
       Session.__init__ (PyBaseModel m) = Ok self
       ∧ Session.selector self
         = Selector.new (BaseModel.spike_clusters m) 100
       ∧ Selector.spike_clusters (Session.selector self)
         = BaseModel.spike_clusters m
       ∧ Selector.n_spikes_max (Session.selector self) = 100%nat)
  ∧ (∀ self : Session.t,
       ∃ self',
         Session._update_after_load self = (Ok tt, self')
         ∧ Session.selector self'
           = Selector.new (BaseModel.spike_clusters (Session.model self)) 100
         ∧ Selector.spike_clusters (Session.selector self')
           = BaseModel.spike_clusters (Session.model self)
         ∧ Selector.n_spikes_max (Session.selector self') = 100%nat).
Proof.
  split.
  - intros m. unfold Session.__init__; cbn [as_BaseModel].
    destruct (load_from_returns GlobalHistory.new ViewManager.new m [] 0)
      as (self & -> & _ & _ & _ & _ & Hsel & _).
    exists self. rewrite Hsel. done.
  - intros self. unfold Session._update_after_load.
    destruct (load_from_returns (Session._global_history self)
                (Session._view_manager self) (Session.model self)
                (Session.detached self ++ [Session.clustering self])
                (Session.next_view self))
      as (self' & -> & _ & _ & _ & _ & Hsel & _).
    exists self'. rewrite Hsel. done.
Qed.

(** C10.  A [model] argument that is not a [BaseModel] instance makes the
    constructor raise [ValueError], and no session comes into being.  For a
    [BaseModel] instance the constructor returns a session with an empty
    history, an empty view manager, the model, and a selector, a clustering
    and the metadata taken from the model. *)
Theorem init_checks_model (model : pyobj) :
  match as_BaseModel model with
  | None => Session.__init__ model = Raise ValueError
  | Some m =>
    ∃ self,
      Session.__init__ model = Ok self
      ∧ Session._global_history self = GlobalHistory.new
      ∧ Session._view_manager self = ViewManager.new
      ∧ Session.model self = m
      ∧ Session.selector self
        = Selector.new (BaseModel.spike_clusters m) 100
      ∧ Session.clustering self
        = Clustering.new (BaseModel.spike_clusters m)
      ∧ Session.cluster_metadata self = BaseModel.cluster_metadata m
  end.
Proof.
  unfold Session.__init__.
  destruct (as_BaseModel model) as [m|]; [|done].
  destruct (load_from_returns GlobalHistory.new ViewManager.new m [] 0)
    as (self & -> & Hh & Hvm & Hviews & Hm & Hsel & Hc & Hmd & _).
  exists self. split; [done|]. split; [done|].
  split; [|done].
  rewrite Hvm. inversion Hviews as [Hnil|]. done.
Qed.

(** ** Colours *)

(** The colour query finds the stored colour or falls back to the
    palette. *)
Lemma lookup_color md cluster :
  ClusterMetadata.lookup md cluster "color" = Some (color_of md cluster).
Proof.
  unfold ClusterMetadata.lookup, ClusterMetadata.entry, color_of.
  destruct (ClusterMetadata.data md !! cluster) as [props|]; simpl.
  - by destruct (props !! "color").
  - unfold ClusterMetadata.default_entry.
    rewrite lookup_insert_ne by done. by rewrite lookup_singleton_eq.
Qed.

(** Creating the entry of a cluster changes no colour. *)
Lemma color_of_touch md cluster' cluster :
  color_of (ClusterMetadata.touch cluster' md) cluster = color_of md cluster.
Proof.
  unfold color_of, ClusterMetadata.touch; simpl.
  destruct (decide (cluster' = cluster)) as [->|Hne].
  - rewrite lookup_insert_eq. unfold ClusterMetadata.entry.
    destruct (ClusterMetadata.data md !! cluster) as [props|]; simpl; [done|].
    unfold ClusterMetadata.default_entry.
    rewrite lookup_insert_ne by done. by rewrite lookup_singleton_eq.
  - by rewrite lookup_insert_ne.
Qed.

(** One colour query of the session: it returns the colour and creates the
    entry of the cluster. *)
Lemma get_color_returns cluster self :
  Session.on_cluster_metadata (ClusterMetadata.get cluster "color") self
  = (Ok (color_of (Session.cluster_metadata self) cluster),
     Session.put_cluster_metadata
       (ClusterMetadata.touch cluster (Session.cluster_metadata self)) self).
Proof.
  unfold Session.on_cluster_metadata, ClusterMetadata.get.
  by rewrite lookup_color.
Qed.

(** The comprehension over the labels returns their colours, in order, as
    the metadata had them when it started; the clustering is untouched. *)
Lemma colors_comprehension labels self :
  ∃ self',
    Session.comprehension
      (λ cluster,
         Session.on_cluster_metadata (ClusterMetadata.get cluster "color"))
      labels self
    = (Ok (color_of (Session.cluster_metadata self) <$> labels), self')
    ∧ Session.clustering self' = Session.clustering self.
Proof.
  revert self. induction labels as [|cluster rest IH]; intros self; simpl.
  - by exists self.
  - unfold bind at 1. rewrite get_color_returns.
    destruct (IH (Session.put_cluster_metadata
                    (ClusterMetadata.touch cluster
                       (Session.cluster_metadata self)) self))
      as (self' & Hrest & Hc).
    exists self'. unfold bind, ret. rewrite Hrest. simpl in *.
    split; [|exact Hc]. do 3 f_equal.
    apply list_fmap_ext. intros i c _. apply color_of_touch.
Qed.

(** C8.  [Session.cluster_colors] always returns, and its result is parallel
    to [Session.cluster_labels]: the same length, and at every index the
    colour of the label at that index, which is the colour stored in the
    metadata for that cluster or, when none is stored, the default colour
    of the palette.  The labels are the same before and after the call. *)
Theorem cluster_colors_parallel_to_labels (self : Session.t) :
  ∃ labels colors self',
    Session.cluster_labels self = (Ok labels, self)
    ∧ Session.cluster_colors self = (Ok colors, self')
    ∧ Session.cluster_labels self' = (Ok labels, self')
    ∧ length colors = length labels
    ∧ colors = color_of (Session.cluster_metadata self) <$> labels
    ∧ ∀ (i : nat) (label : Z),
        labels !! i = Some label →
        colors !! i = Some (color_of (Session.cluster_metadata self) label).
Proof.
  destruct (colors_comprehension
              (Clustering.cluster_labels (Session.clustering self)) self)
    as (self' & Hrun & Hc).
  eexists _, _, self'. split; [reflexivity|].
  split; [|split; [|split; [|split]]].
  - unfold Session.cluster_colors, bind, Session.cluster_labels, gets.
    exact Hrun.
  - unfold Session.cluster_labels, gets. by rewrite Hc.
  - by rewrite length_fmap.
  - reflexivity.
  - intros i label Hi. by rewrite list_lookup_fmap, Hi.
Qed.

(** The colours of the example session: no colour is stored, so each label
    gets its palette colour. *)
Lemma cluster_colors_parallel_to_labels_witness :
  ∃ labels colors,
    (Session.cluster_labels fresh_session).1 = Ok labels
    ∧ (Session.cluster_colors fresh_session).1 = Ok colors
    ∧ labels !! 1%nat = Some 1
    ∧ colors !! 1%nat = Some (ClusterMetadata.VInt 1).
Proof.
  destruct (cluster_colors_parallel_to_labels fresh_session)
    as (labels & colors & self' & Hlabels & Hcolors & _ & _ & _ & Hat).
  assert (labels = [0; 1; 2]) as Heq.
  { assert ((Session.cluster_labels fresh_session).1 = Ok [0; 1; 2]) as H
      by (vm_compute; reflexivity).
    rewrite Hlabels in H. simpl in H. by inversion H. }
  exists labels, colors. rewrite Hlabels, Hcolors. simpl.
  split; [done|]. split; [done|]. split; [by rewrite Heq|].
  apply (Hat 1%nat 1). by rewrite Heq.
Defined.

(** ** When a selection returns *)

(** The spikes of some clusters are spikes of the vector. *)
Lemma spikes_in_range ids sc :
  Forall (λ i, (i < length sc)%nat) (Clustering.spikes_in ids sc).
Proof.
  apply Forall_forall. intros i Hi. unfold Clustering.spikes_in in Hi.
  apply list_elem_of_fmap in Hi as ([j c] & -> & Hin).
  apply list_elem_of_filter in Hin as [_ Hin].
  apply elem_of_lookup_imap in Hin as (k & y & Heq & Hk).
  inversion Heq; subst. simpl. by eapply lookup_lt_Some.
Qed.

(** Indexing an array by indices within its bounds returns. *)
Lemma fancy_index_in_range {A : Type} (arr : list A) (idx : list nat) :
  Forall (λ i, (i < length arr)%nat) idx →
  is_Some (fancy_index arr idx).
Proof.
  intros Hidx. unfold fancy_index. apply mapM_is_Some.
  eapply Forall_impl; [exact Hidx|]. intros i Hi. simpl.
  by apply lookup_lt_is_Some.
Qed.

(** [Session.select] returns when the clusters are live in the selector's
    vector and the model has a waveform and a mask for every spike. *)
Lemma select_returns self clusters :
  Forall (λ c, c ∈ Selector.spike_clusters (Session.selector self)) clusters →
  (length (Selector.spike_clusters (Session.selector self))
   ≤ length (BaseModel.waveforms (Session.model self)))%nat →
  (length (Selector.spike_clusters (Session.selector self))
   ≤ length (BaseModel.masks (Session.model self)))%nat →
  ∃ self', Session.select clusters self = (Ok tt, self').
Proof.
  intros Hlive Hw Hm.
  unfold Session.select, bind, Session.on_selector,
    Selector.set_selected_clusters.
  rewrite bool_decide_eq_true_2 by exact Hlive.
  apply refresh_views_total. intros view Hview.
  unfold Session._update_waveforms_after_select. rewrite Hview. simpl.
  assert (Forall (λ i, (i < length (Selector.spike_clusters
                                      (Session.selector self)))%nat)
            (Selector.selected_spikes
               {| Selector.spike_clusters :=
                    Selector.spike_clusters (Session.selector self);
                  Selector.n_spikes_max :=
                    Selector.n_spikes_max (Session.selector self);
                  Selector.selected_clusters := clusters |})) as Hrange.
  { unfold Selector.selected_spikes; simpl.
    apply Forall_take, spikes_in_range. }
  destruct (fancy_index_in_range (BaseModel.waveforms (Session.model self))
              _ (Forall_impl _ _ _ Hrange
                   (λ i Hi, Nat.lt_le_trans _ _ _ Hi Hw))) as [ws ->].
  destruct (fancy_index_in_range (BaseModel.masks (Session.model self))
              _ (Forall_impl _ _ _ Hrange
                   (λ i Hi, Nat.lt_le_trans _ _ _ Hi Hm))) as [ms ->].
  by eexists.
Qed.

(** ** The example scenario *)

Example construct_example :
  Session.__init__ (PyBaseModel example_model) = Ok fresh_session.
Proof. vm_compute. reflexivity. Qed.

Example merge_scenario :
  Clustering.spike_clusters (Session.clustering merged_session)
  = [3; 3; 3; 3; 2]
  ∧ Clustering.cluster_labels (Session.clustering merged_session) = [2; 3].
Proof. vm_compute. done. Qed.

Example undo_scenario :
  Clustering.spike_clusters
    (Session.clustering (after Session.undo merged_session))
  = [0; 0; 1; 1; 2].
Proof. vm_compute. reflexivity. Qed.

Example split_scenario :
  Clustering.spike_clusters
    (Session.clustering
       (after (Session.split [0; 1]%nat) merged_session))
  = [4; 4; 3; 3; 2]
  ∧ recorded (after (Session.split [0; 1]%nat) merged_session)
    = [Session.PClustering 0; Session.PClustering 0].
Proof. vm_compute. done. Qed.

Example non_model_rejected :
  Session.__init__ PyNone = Raise ValueError
  ∧ Session.__init__ (PyList [0; 0; 1]) = Raise ValueError.
Proof. done. Qed.

(** ** The view manager *)

(** Removing an object that is not in the list changes nothing. *)
Lemma remove_absent id views :
  id ∉ idents views → ViewManager.remove id views = views.
Proof.
  induction views as [|v rest IH]; simpl; [done|].
  intros Hnot. apply not_elem_of_cons in Hnot as [Hne Hrest].
  case_bool_decide; [congruence|]. by rewrite IH.
Qed.

Lemma close_object_cons id v rest :
  ViewManager.close_object id (v :: rest)
  = (if bool_decide (View.ident v = id) then (View.close v).2 else v)
      :: ViewManager.close_object id rest.
Proof. reflexivity. Qed.

Lemma close_object_app id views views' :
  ViewManager.close_object id (views ++ views')
  = ViewManager.close_object id views ++ ViewManager.close_object id views'.
Proof. apply fmap_app. Qed.

(** Closing an object that is not in the list changes nothing of the
    list. *)
Lemma close_object_absent id views :
  id ∉ idents views → ViewManager.close_object id views = views.
Proof.
  induction views as [|v rest IH]; [done|].
  intros Hnot. apply not_elem_of_cons in Hnot as [Hne Hrest].
  rewrite close_object_cons.
  rewrite bool_decide_eq_false_2 by congruence. by rewrite IH.
Qed.

(** Closing an object keeps the objects of the list. *)
Lemma close_object_idents id views :
  idents (ViewManager.close_object id views) = idents views.
Proof.
  unfold idents, ViewManager.close_object.
  rewrite <- list_fmap_compose. apply list_fmap_ext.
  intros i v _. simpl. by case_bool_decide.
Qed.

(** Closing an object and removing it takes out its first occurrence; the
    occurrences behind it stay, closed. *)
Lemma remove_closed_first id views :
  id ∈ idents views →
  ∃ before found after,
    views = before ++ found :: after
    ∧ View.ident found = id
    ∧ (id ∉ idents before)
    ∧ ViewManager.remove id (ViewManager.close_object id views)
      = before ++ ViewManager.close_object id after.
Proof.
  induction views as [|v rest IH].
  - intros H. by apply elem_of_nil in H.
  - intros Hin. rewrite close_object_cons.
    destruct (decide (View.ident v = id)) as [Hv|Hv].
    + rewrite bool_decide_eq_true_2 by exact Hv.
      cbn [ViewManager.remove].
      rewrite bool_decide_eq_true_2 by exact Hv.
      exists [], v, rest. simpl. repeat split; try done.
      apply not_elem_of_nil.
    + rewrite bool_decide_eq_false_2 by exact Hv.
      cbn [ViewManager.remove].
      rewrite bool_decide_eq_false_2 by exact Hv.
      apply elem_of_cons in Hin as [Heq|Hin]; [congruence|].
      destruct (IH Hin) as (before & found & after' & Heq & Hid & Hnot & Hrem).
      exists (v :: before), found, after'. rewrite Hrem, Heq.
      repeat split; try done.
      apply not_elem_of_cons. split; [congruence | exact Hnot].
Qed.

(** Removing the object that was appended last, when it was not in the list
    before, gives the list back. *)
Lemma remove_appended id views view :
  id ∉ idents views → View.ident view = id →
  ViewManager.remove id (views ++ [view]) = views.
Proof.
  intros Hnot Hid. induction views as [|v rest IH]; simpl.
  - by rewrite bool_decide_eq_true_2.
  - apply not_elem_of_cons in Hnot as [Hne Hrest].
    rewrite bool_decide_eq_false_2; [|congruence]. by rewrite IH.
Qed.

(** [unregister] of a view that was never registered: the list of views is
    untouched, yet [close()] was invoked on the view. *)
Theorem unregister_unknown_view_still_closes (vm : ViewManager.t)
    (view : View.t) :
  View.ident view ∉ idents (ViewManager.views vm) →
  ∃ view',
    ViewManager.unregister view vm = (Ok view', vm)
    ∧ View.closes view' = S (View.closes view)
    ∧ View.ident view' = View.ident view.
Proof.
  intros Hnot. unfold ViewManager.unregister.
  rewrite bool_decide_eq_false_2 by exact Hnot.
  by eexists.
Qed.

Lemma unregister_unknown_view_still_closes_witness :
  ∃ view',
    ViewManager.unregister (plain_view 9)
      (Session._view_manager short_session)
    = (Ok view', Session._view_manager short_session)
    ∧ View.closes view' = 1%nat.
Proof.
  destruct (unregister_unknown_view_still_closes
              (Session._view_manager short_session) (plain_view 9))
    as (view' & Hrun & Hcloses & _).
  - vm_compute. intros H.
    repeat (apply elem_of_cons in H as [H|H]; [discriminate|]).
    by apply elem_of_nil in H.
  - by exists view'.
Defined.

(** [unregister] of a registered view drops exactly its first occurrence:
    the views before it stay as they are, the views after it stay in order.
    A view registered twice is still registered once afterwards, and that
    occurrence, being the same object, is closed. *)
Theorem unregister_drops_first_occurrence (vm : ViewManager.t)
    (view : View.t) :
  View.ident view ∈ idents (ViewManager.views vm) →
  ∃ before found after view' vm',
    ViewManager.unregister view vm = (Ok view', vm')
    ∧ ViewManager.views vm = before ++ found :: after
    ∧ View.ident found = View.ident view
    ∧ (View.ident view ∉ idents before)
    ∧ ViewManager.views vm'
      = before ++ ViewManager.close_object (View.ident view) after
    ∧ idents (ViewManager.views vm') = idents (before ++ after)
    ∧ Forall (λ v, View.ident v = View.ident view →
                   ∃ v0, v0 ∈ after ∧ View.ident v0 = View.ident view
                         ∧ View.closes v = S (View.closes v0))
        (ViewManager.views vm')
    ∧ length (ViewManager.views vm') = pred (length (ViewManager.views vm)).
Proof.
  intros Hin. unfold ViewManager.unregister.
  rewrite bool_decide_eq_true_2 by exact Hin.
  destruct (remove_closed_first _ _ Hin)
    as (before & found & after' & Heq & Hid & Hnot & Hrem).
  exists before, found, after'. do 2 eexists. split; [done|].
  unfold ViewManager.views in *. simpl. rewrite Hrem, Heq.
  split; [done|]. split; [done|]. split; [done|]. split; [done|].
  split; [|split].
  - unfold idents. rewrite !fmap_app. f_equal. apply close_object_idents.
  - apply Forall_app. split.
    + apply Forall_forall. intros v Hv Hidv. exfalso. apply Hnot.
      rewrite <- Hidv. unfold idents. by apply list_elem_of_fmap_2.
    + apply Forall_forall. intros v Hv Hidv.
      unfold ViewManager.close_object in Hv.
      apply list_elem_of_fmap in Hv as (v0 & -> & Hv0).
      case_bool_decide as Hv0id.
      * exists v0. by repeat split.
      * simpl in Hidv. congruence.
  - unfold ViewManager.close_object. rewrite !length_app, length_fmap.
    simpl. lia.
Qed.

(** A view registered twice, with another view in between: after
    [unregister] it is registered once, behind the other view, closed. *)
Lemma unregister_drops_first_occurrence_witness :
  ∃ view' vm',
    ViewManager.unregister (plain_view 7)
      (ViewManager.mk [plain_view 7; plain_view 8; plain_view 7])
    = (Ok view', vm')
    ∧ idents (ViewManager.views vm') = [8; 7]%nat
    ∧ (View.closes <$> ViewManager.views vm') = [0; 1]%nat.
Proof.
  destruct (unregister_drops_first_occurrence
              (ViewManager.mk [plain_view 7; plain_view 8; plain_view 7])
              (plain_view 7))
    as (before & found & after' & view' & vm' & Hrun & _).
  - vm_compute. apply elem_of_cons. by left.
  - exists view', vm'. split; [exact Hrun|].
    assert ((ViewManager.unregister (plain_view 7)
               (ViewManager.mk [plain_view 7; plain_view 8; plain_view 7])).2
            = vm') as <- by (by rewrite Hrun).
    split; vm_compute; reflexivity.
Defined.

(** Registering a view that was not registered and unregistering it again
    gives back the list of views as it was. *)
Theorem register_then_unregister (vm : ViewManager.t) (view : View.t) :
  View.ident view ∉ idents (ViewManager.views vm) →
  ∃ view',
    (ViewManager.register view ;; ViewManager.unregister view)%method vm
    = (Ok view', vm)
    ∧ View.closes view' = S (View.closes view).
Proof.
  intros Hnot. destruct vm as [views]. unfold ViewManager.views in Hnot.
  simpl in Hnot.
  unfold bind, ViewManager.register, modify, ViewManager.unregister; simpl.
  rewrite bool_decide_eq_true_2.
  2: { rewrite fmap_app. apply elem_of_app. right. simpl.
       apply elem_of_cons. by left. }
  rewrite close_object_app, (close_object_absent _ views Hnot).
  rewrite close_object_cons, bool_decide_eq_true_2 by done.
  change (ViewManager.close_object (View.ident view) []) with (@nil View.t).
  rewrite (remove_appended (View.ident view) views); [|done|done].
  by eexists.
Qed.

Lemma register_then_unregister_witness :
  ∃ view',
    (ViewManager.register (plain_view 9) ;;
     ViewManager.unregister (plain_view 9))%method
      (Session._view_manager short_session)
    = (Ok view', Session._view_manager short_session).
Proof.
  destruct (register_then_unregister
              (Session._view_manager short_session) (plain_view 9))
    as (view' & Hrun & _).
  - vm_compute. intros H.
    repeat (apply elem_of_cons in H as [H|H]; [discriminate|]).
    by apply elem_of_nil in H.
  - by exists view'.
Defined.

(** ** Showing and closing views *)

(** What is left after a removal was in the list. *)
Lemma remove_subseteq id views v :
  v ∈ ViewManager.remove id views → v ∈ views.
Proof.
  induction views as [|v0 rest IH]; simpl; [done|].
  case_bool_decide.
  - intros Hv. apply elem_of_cons. by right.
  - intros Hv. apply elem_of_cons in Hv as [->|Hv].
    + apply elem_of_cons. by left.
    + apply elem_of_cons. right. by apply IH.
Qed.

Lemma remove_idents id views :
  idents (ViewManager.remove id (ViewManager.close_object id views))
  = idents (ViewManager.remove id views).
Proof.
  induction views as [|v rest IH]; [done|].
  rewrite close_object_cons. cbn [ViewManager.remove].
  destruct (decide (View.ident v = id)) as [Hv|Hv].
  - rewrite !(bool_decide_eq_true_2 (View.ident v = id)) by exact Hv.
    simpl. apply close_object_idents.
  - rewrite !(bool_decide_eq_false_2 (View.ident v = id)) by exact Hv.
    unfold idents in *. rewrite !fmap_cons. by rewrite IH.
Qed.

(** What [Session.close_view] returns and leaves registered. *)
Lemma close_view_returns (self : Session.t) (view : View.t) :
  ∃ view' self',
    Session.close_view view self = (Ok view', self')
    ∧ View.closes view' = S (S (View.closes view))
    ∧ View.ident view' = View.ident view
    ∧ registered self'
      = ViewManager.close_object (View.ident view)
          (ViewManager.remove (View.ident view)
             (ViewManager.close_object (View.ident view) (registered self)))
    ∧ idents (registered self')
      = idents (ViewManager.remove (View.ident view) (registered self))
    ∧ Forall (λ v, View.ident v = View.ident view →
                   (2 ≤ View.closes v)%nat) (registered self')
    ∧ only_views_differ self self'.
Proof.
  assert (∃ view' self',
            Session.close_view view self = (Ok view', self')
            ∧ View.closes view' = S (S (View.closes view))
            ∧ View.ident view' = View.ident view
            ∧ registered self'
              = ViewManager.close_object (View.ident view)
                  (ViewManager.remove (View.ident view)
                     (ViewManager.close_object (View.ident view)
                        (registered self)))
            ∧ only_views_differ self self')
    as (view' & self' & Hrun & Hc & Hi & Hviews & Hframe).
  { unfold Session.close_view, bind, Session.on_view_manager,
      Session.on_views, ViewManager.unregister, ret.
    case_bool_decide as Hin.
    - do 2 eexists. split; [reflexivity|]. by repeat split.
    - do 2 eexists. split; [reflexivity|]. repeat split; try done.
      unfold registered, ViewManager.views; simpl.
      rewrite (close_object_absent _ _ Hin), (remove_absent _ _ Hin).
      by rewrite (close_object_absent _ _ Hin). }
  exists view', self'. split; [exact Hrun|]. split; [exact Hc|].
  split; [exact Hi|]. split; [exact Hviews|]. split; [|split; [|exact Hframe]].
  - rewrite Hviews, close_object_idents. apply remove_idents.
  - rewrite Hviews. apply Forall_forall. intros v Hv Hid.
    unfold ViewManager.close_object at 1 in Hv.
    apply list_elem_of_fmap in Hv as (v1 & -> & Hv1).
    apply remove_subseteq in Hv1.
    unfold ViewManager.close_object in Hv1.
    apply list_elem_of_fmap in Hv1 as (v0 & -> & Hv0).
    repeat case_bool_decide; simpl in *; try congruence; lia.
Qed.

(** [Session.close_view] always returns.  [close()] is invoked twice on the
    view (once by [unregister], once by [close_view] itself); the first
    registered occurrence of the view, if any, is dropped, and a further
    occurrence, being the same object, stays registered, closed twice.
    Nothing but the list of views is written. *)
Theorem close_view_closes_twice (self : Session.t) (view : View.t) :
  ∃ view' self',
    Session.close_view view self = (Ok view', self')
    ∧ View.closes view' = S (S (View.closes view))
    ∧ View.ident view' = View.ident view
    ∧ registered self'
      = ViewManager.close_object (View.ident view)
          (ViewManager.remove (View.ident view)
             (ViewManager.close_object (View.ident view) (registered self)))
    ∧ idents (registered self')
      = idents (ViewManager.remove (View.ident view) (registered self))
    ∧ Forall (λ v, View.ident v = View.ident view →
                   (2 ≤ View.closes v)%nat) (registered self')
    ∧ only_views_differ self self'.
Proof. apply close_view_returns. Qed.

(** A view registered twice by hand in the example session: after
    [close_view] it is still registered once, and that occurrence has been
    closed twice, as has the view handed back. *)
Lemma close_view_closes_twice_witness :
  ∃ view' self',
    Session.close_view (plain_view 7)
      (Session.put_views [plain_view 7; plain_view 8; plain_view 7]
         fresh_session)
    = (Ok view', self')
    ∧ View.closes view' = 2%nat
    ∧ idents (registered self') = [8; 7]%nat
    ∧ (View.closes <$> registered self') = [0; 2]%nat.
Proof.
  destruct (close_view_closes_twice
              (Session.put_views [plain_view 7; plain_view 8; plain_view 7]
                 fresh_session)
              (plain_view 7))
    as (view' & self' & Hrun & Hcloses & _ & Hviews & _).
  exists view', self'. split; [exact Hrun|]. split; [exact Hcloses|].
  rewrite Hviews. split; vm_compute; reflexivity.
Defined.

(** A fresh identity is the identity of no view of the list. *)
Lemma fresh_ident_not_registered self :
  Session.fresh_ident self ∉ idents (registered self).
Proof.
  unfold Session.fresh_ident, idents, registered.
  generalize (ViewManager.views (Session._view_manager self)) as views.
  intros views.
  assert (∀ id, id ∈ View.ident <$> views →
                (id ≤ foldr Nat.max 0 (View.ident <$> views))%nat) as Hmax.
  { induction (View.ident <$> views) as [|x xs IH]; intros id Hid.
    - by apply elem_of_nil in Hid.
    - simpl. apply elem_of_cons in Hid as [->|Hid]; [lia|].
      specialize (IH id Hid). lia. }
  intros Hin. apply Hmax in Hin. lia.
Qed.

(** What [Session.show_waveforms] leaves registered. *)
Lemma show_waveforms_appends (self : Session.t)
    (o : outcome View.t) (self' : Session.t) :
  Session.show_waveforms self = (o, self') →
  ∃ view',
    registered self' = registered self ++ [view']
    ∧ View.is_waveform_view view' = true
    ∧ (View.ident view' ∉ idents (registered self))
    ∧ View.updates view' = 0%nat
    ∧ View.closes view' = 0%nat
    ∧ only_views_differ self self'
    ∧ (∀ view, o = Ok view → view = view').
Proof.
  unfold Session.show_waveforms.
  destruct ((_ ;; _)%method _) as [o1 view'] eqn:Hhooks.
  intros Hrun. unfold bind in Hhooks.
  destruct (Session._update_waveforms_after_load self _)
    as [o2 view1] eqn:Hload.
  pose proof (load_hook_keeps_view _ _ _ _ Hload) as (Hi1 & Hw1 & Hu1).
  unfold Session._update_waveforms_after_load in Hload. simpl in Hload.
  assert (View.closes view1 = 0%nat) as Hc1 by (by inversion Hload).
  assert (o2 = Ok tt) as -> by (by inversion Hload).
  pose proof (select_hook_keeps_view _ _ _ _ Hhooks) as (Hi & Hw & Hu).
  assert (View.closes view' = 0%nat) as Hc.
  { unfold Session._update_waveforms_after_select in Hhooks.
    rewrite Hw1 in Hhooks. simpl in Hhooks.
    repeat case_match; inversion Hhooks; subst; simpl; exact Hc1. }
  exists view'.
  assert (self' = Session.put_next_view (S (Session.fresh_ident self))
                    (Session.put_views (registered self ++ [view']) self)
          ∧ ∀ view, o = Ok view → view = view') as [-> Hret].
  { destruct o1; inversion Hrun; subst; split; try done.
    intros view Hv. by inversion Hv. }
  split; [done|]. split; [by rewrite Hw, Hw1|].
  split; [rewrite Hi, Hi1; apply fresh_ident_not_registered|].
  split; [by rewrite Hu, Hu1|]. split; [exact Hc|]. split; [|exact Hret].
  by repeat split.
Qed.

(** [Session.show_waveforms], whether it returns or raises, has registered
    exactly one new view, a [WaveformView], behind the views that were
    registered; [update()] was invoked on no view, and nothing but the list
    of views is written.  When it returns, the view it returns is the
    registered one. *)
Theorem show_waveforms_registers_one_view (self : Session.t)
    (o : outcome View.t) (self' : Session.t) :
  Session.show_waveforms self = (o, self') →
  ∃ view',
    registered self' = registered self ++ [view']
    ∧ View.is_waveform_view view' = true
    ∧ (View.ident view' ∉ idents (registered self))
    ∧ View.updates view' = 0%nat
    ∧ View.closes view' = 0%nat
    ∧ only_views_differ self self'
    ∧ (∀ view, o = Ok view → view = view').
Proof. apply show_waveforms_appends. Qed.

Lemma show_waveforms_registers_one_view_witness :
  ∃ view',
    registered viewed_session = registered fresh_session ++ [view']
    ∧ View.is_waveform_view view' = true
    ∧ View.updates view' = 0%nat.
Proof.
  destruct (show_waveforms_registers_one_view fresh_session
              (Session.show_waveforms fresh_session).1 viewed_session)
    as (view' & Hviews & Hw & _ & Hu & _).
  - vm_compute. reflexivity.
  - by exists view'.
Defined.

(** The two cases of [Session.show_waveforms]. *)
Lemma show_waveforms_cases (self : Session.t) :
  let spikes := Selector.selected_spikes (Session.selector self) in
  match fancy_index (BaseModel.waveforms (Session.model self)) spikes,
        fancy_index (BaseModel.masks (Session.model self)) spikes with
  | Some waveforms, Some masks =>
    ∃ view self',
      Session.show_waveforms self = (Ok view, self')
      ∧ View.visual view
        = {| View.spike_clusters :=
               Some (View.SpikeClustersOf (Session.clustering_obj self));
             View.cluster_metadata := Some View.SessionMetadata;
             View.channel_positions :=
               Some (BaseModel.probe_positions (Session.model self));
             View.waveforms := Some waveforms;
             View.masks := Some masks;
             View.spike_labels := Some spikes |}
      ∧ Session.shown self' view
        = {| View.shown_spike_clusters :=
               Some (Clustering.spike_clusters (Session.clustering self));
             View.shown_cluster_metadata :=
               Some (Session.cluster_metadata self);
             View.shown_channel_positions :=
               Some (BaseModel.probe_positions (Session.model self));
             View.shown_waveforms := Some waveforms;
             View.shown_masks := Some masks;
             View.shown_spike_labels := Some spikes |}
  | _, _ => ∃ self', Session.show_waveforms self = (Raise IndexError, self')
  end.
Proof.
  intros spikes. subst spikes.
  unfold Session.show_waveforms, bind, Session._update_waveforms_after_load,
    Session._update_waveforms_after_select; simpl.
  destruct (fancy_index (BaseModel.waveforms _) _) as [ws|];
    [destruct (fancy_index (BaseModel.masks _) _) as [ms|]|];
    simpl; try by repeat eexists.
  do 2 eexists. split; [reflexivity|]. split; [reflexivity|].
  unfold Session.shown, Session.spike_clusters_of; simpl.
  by rewrite bool_decide_eq_true_2.
Qed.

(** What [Session.show_waveforms] does is decided by the two array lookups
    of the selected spikes.  When both are within bounds it returns a view
    whose visual is bound to the partition of the clustering and to the
    metadata and shows them, with the probe positions and the waveforms,
    masks and labels of the selected spikes; otherwise it raises
    [IndexError]. *)
Theorem show_waveforms_outcome (self : Session.t) :
  let spikes := Selector.selected_spikes (Session.selector self) in
  match fancy_index (BaseModel.waveforms (Session.model self)) spikes,
        fancy_index (BaseModel.masks (Session.model self)) spikes with
  | Some waveforms, Some masks =>
    ∃ view self',
      Session.show_waveforms self = (Ok view, self')
      ∧ View.visual view
        = {| View.spike_clusters :=
               Some (View.SpikeClustersOf (Session.clustering_obj self));
             View.cluster_metadata := Some View.SessionMetadata;
             View.channel_positions :=
               Some (BaseModel.probe_positions (Session.model self));
             View.waveforms := Some waveforms;
             View.masks := Some masks;
             View.spike_labels := Some spikes |}
      ∧ Session.shown self' view
        = {| View.shown_spike_clusters :=
               Some (Clustering.spike_clusters (Session.clustering self));
             View.shown_cluster_metadata :=
               Some (Session.cluster_metadata self);
             View.shown_channel_positions :=
               Some (BaseModel.probe_positions (Session.model self));
             View.shown_waveforms := Some waveforms;
             View.shown_masks := Some masks;
             View.shown_spike_labels := Some spikes |}
  | _, _ => ∃ self', Session.show_waveforms self = (Raise IndexError, self')
  end.
Proof. exact (show_waveforms_cases self). Qed.

(** With nothing selected, as right after a load, [show_waveforms]
    returns. *)
Lemma nothing_selected_no_spikes sel :
  Selector.selected_clusters sel = [] → Selector.selected_spikes sel = [].
Proof.
  intros Hsel. unfold Selector.selected_spikes, Clustering.spikes_in.
  rewrite Hsel.
  assert (filter (λ p : nat * Z, p.2 ∈ [])
            (imap pair (Selector.spike_clusters sel)) = []) as ->.
  { induction (imap pair (Selector.spike_clusters sel)) as [|p ps IH];
      [done|].
    rewrite filter_cons_False; [exact IH | apply not_elem_of_nil]. }
  simpl. apply take_nil.
Qed.

(** Showing a view and closing it again. *)
Lemma show_then_close (self self1 : Session.t) (view : View.t) :
  Session.show_waveforms self = (Ok view, self1) →
  ∃ view' self2,
    Session.close_view view self1 = (Ok view', self2)
    ∧ registered self2 = registered self
    ∧ only_views_differ self self2.
Proof.
  intros Hshow.
  destruct (show_waveforms_appends _ _ _ Hshow)
    as (view1 & Hviews & _ & Hfresh & _ & _ & Hframe1 & Hret).
  rewrite <- (Hret view eq_refl) in *.
  destruct (close_view_returns self1 view)
    as (view' & self2 & Hclose & _ & _ & Hviews2 & _ & _ & Hframe2).
  exists view', self2. split; [exact Hclose|]. split.
  - rewrite Hviews2, Hviews.
    rewrite close_object_app, (close_object_absent _ _ Hfresh).
    rewrite close_object_cons, bool_decide_eq_true_2 by done.
    change (ViewManager.close_object (View.ident view) [])
      with (@nil View.t).
    rewrite (remove_appended (View.ident view) (registered self));
      [|done|done].
    by apply close_object_absent.
  - unfold only_views_differ in *.
    destruct Hframe1 as (? & ? & ? & ? & ? & ?).
    destruct Hframe2 as (? & ? & ? & ? & ? & ?).
    repeat split; congruence.
Qed.

(** Closing the view that [show_waveforms] returned gives back the
    registered views as they were before [show_waveforms]. *)
Theorem show_then_close_restores_views (self self1 : Session.t)
    (view : View.t) :
  Session.show_waveforms self = (Ok view, self1) →
  ∃ view' self2,
    Session.close_view view self1 = (Ok view', self2)
    ∧ registered self2 = registered self
    ∧ only_views_differ self self2.
Proof. apply show_then_close. Qed.

Lemma show_then_close_restores_views_witness :
  ∃ view view' self2,
    Session.show_waveforms fresh_session = (Ok view, viewed_session)
    ∧ Session.close_view view viewed_session = (Ok view', self2)
    ∧ registered self2 = registered fresh_session.
Proof.
  assert (∃ view, Session.show_waveforms fresh_session
                  = (Ok view, viewed_session)) as [view Hshow]
    by (eexists; vm_compute; reflexivity).
  destruct (show_then_close_restores_views _ _ _ Hshow)
    as (view' & self2 & Hclose & Hviews & _).
  by exists view, view', self2.
Defined.

(** The identity that [show_waveforms] gives to its view, and the bound it
    leaves for the next one. *)
Lemma show_waveforms_ident self o self' :
  Session.show_waveforms self = (o, self') →
  Session.next_view self' = S (Session.fresh_ident self)
  ∧ ∀ view, o = Ok view → View.ident view = Session.fresh_ident self.
Proof.
  unfold Session.show_waveforms.
  destruct ((_ ;; _)%method _) as [o1 view'] eqn:Hhooks.
  intros Hrun. unfold bind in Hhooks.
  destruct (Session._update_waveforms_after_load self _)
    as [o2 view1] eqn:Hload.
  pose proof (load_hook_keeps_view _ _ _ _ Hload) as (Hi1 & _).
  unfold Session._update_waveforms_after_load in Hload. simpl in Hload.
  assert (o2 = Ok tt) as -> by (by inversion Hload).
  pose proof (select_hook_keeps_view _ _ _ _ Hhooks) as (Hi & _).
  destruct o1; inversion Hrun; subst; split; try done.
  intros view Hv. inversion Hv; subst. by rewrite Hi, Hi1.
Qed.

(** [close_view] leaves the bound for the identity of the next view. *)
Lemma close_view_next_view view self :
  Session.next_view (after (Session.close_view view) self)
  = Session.next_view self.
Proof.
  unfold after, Session.close_view, bind, Session.on_view_manager,
    Session.on_views, ViewManager.unregister, ret.
  by case_bool_decide.
Qed.

(** A view that [show_waveforms] creates after an earlier one was closed is
    another object: it has not the identity of the closed view, so that
    closing the closed view once more, through the handle the caller still
    holds, leaves the new view registered. *)
Theorem closed_view_is_not_the_next_view (self s1 s3 : Session.t)
    (view1 view2 : View.t) :
  Session.show_waveforms self = (Ok view1, s1) →
  Session.show_waveforms (after (Session.close_view view1) s1)
  = (Ok view2, s3) →
  View.ident view2 ≠ View.ident view1
  ∧ registered s3 = registered self ++ [view2]
  ∧ (View.ident view1 ∉ idents (registered s3))
  ∧ registered (after (Session.close_view view1) s3) = registered s3.
Proof.
  intros Hshow1 Hshow2.
  destruct (show_waveforms_ident _ _ _ Hshow1) as [Hnext1 Hid1].
  specialize (Hid1 view1 eq_refl).
  destruct (show_waveforms_appends _ _ _ Hshow1)
    as (v1 & _ & _ & Hfresh1 & _ & _ & _ & Hret1).
  rewrite <- (Hret1 view1 eq_refl) in Hfresh1.
  destruct (show_then_close _ _ _ Hshow1)
    as (closed & s2 & Hclose & Hviews2 & _).
  assert (after (Session.close_view view1) s1 = s2) as Hs2
    by (unfold after; by rewrite Hclose).
  pose proof (close_view_next_view view1 s1) as Hnext2.
  rewrite Hs2 in Hshow2, Hnext2.
  destruct (show_waveforms_ident _ _ _ Hshow2) as [_ Hid2].
  specialize (Hid2 view2 eq_refl).
  destruct (show_waveforms_appends _ _ _ Hshow2)
    as (v2 & Hviews3 & _ & _ & _ & _ & _ & Hret2).
  rewrite <- (Hret2 view2 eq_refl), Hviews2 in Hviews3.
  assert (View.ident view2 ≠ View.ident view1) as Hneq.
  { rewrite Hid2, Hid1. unfold Session.fresh_ident at 1.
    rewrite Hnext2, Hnext1. lia. }
  assert (View.ident view1 ∉ idents (registered s3)) as Habsent.
  { rewrite Hviews3. unfold idents in *. rewrite fmap_app. simpl.
    intros Hin. apply elem_of_app in Hin as [Hin|Hin]; [done|].
    apply elem_of_cons in Hin as [Hin|Hin]; [by apply Hneq|].
    by apply elem_of_nil in Hin. }
  split; [exact Hneq|]. split; [exact Hviews3|]. split; [exact Habsent|].
  destruct (close_view_returns s3 view1)
    as (closed' & s4 & Hclose' & _ & _ & Hviews4 & _).
  unfold after. rewrite Hclose'. simpl. rewrite Hviews4.
  rewrite (close_object_absent _ _ Habsent), (remove_absent _ _ Habsent).
  by apply close_object_absent.
Qed.

(** In the example session: show, close, show; the second view has
    identity 2, the first had 1, and closing the first again leaves the
    second registered. *)
Lemma closed_view_is_not_the_next_view_witness :
  ∃ view1 view2 s3,
    Session.show_waveforms fresh_session = (Ok view1, viewed_session)
    ∧ Session.show_waveforms
        (after (Session.close_view view1) viewed_session)
      = (Ok view2, s3)
    ∧ View.ident view1 = 1%nat
    ∧ View.ident view2 = 2%nat
    ∧ idents (registered (after (Session.close_view view1) s3)) = [2%nat].
Proof.
  pose (view1 := match (Session.show_waveforms fresh_session).1 with
                 | Ok view => view
                 | Raise _ => plain_view 0
                 end).
  pose (s2 := after (Session.close_view view1) viewed_session).
  pose (view2 := match (Session.show_waveforms s2).1 with
                 | Ok view => view
                 | Raise _ => plain_view 0
                 end).
  assert (Session.show_waveforms fresh_session = (Ok view1, viewed_session))
    as Hshow1 by (vm_compute; reflexivity).
  assert (Session.show_waveforms s2
          = (Ok view2, after Session.show_waveforms s2))
    as Hshow2 by (vm_compute; reflexivity).
  destruct (closed_view_is_not_the_next_view _ _ _ _ _ Hshow1 Hshow2)
    as (_ & Hviews & _ & Hkept).
  exists view1, view2, (after Session.show_waveforms s2).
  split; [exact Hshow1|]. split; [exact Hshow2|].
  split; [vm_compute; reflexivity|]. split; [vm_compute; reflexivity|].
  rewrite Hkept, Hviews. vm_compute. reflexivity.
Defined.

(** With nothing selected, as right after a load, [show_waveforms] returns
    whatever arrays the model holds, and the view it returns shows no
    spike. *)
Theorem show_waveforms_with_nothing_selected (self : Session.t) :
  Selector.selected_clusters (Session.selector self) = [] →
  ∃ view self',
    Session.show_waveforms self = (Ok view, self')
    ∧ View.waveforms (View.visual view) = Some []
    ∧ View.masks (View.visual view) = Some []
    ∧ View.spike_labels (View.visual view) = Some [].
Proof.
  intros Hsel. pose proof (show_waveforms_cases self) as H.
  simpl in H. rewrite (nothing_selected_no_spikes _ Hsel) in H.
  simpl in H. destruct H as (view & self' & Hrun & Hvisual & _).
  exists view, self'. rewrite Hvisual. done.
Qed.

Lemma show_waveforms_with_nothing_selected_witness :
  ∃ view self',
    Session.show_waveforms
      (Session.load_from GlobalHistory.new ViewManager.new short_model [] 0).2
    = (Ok view, self')
    ∧ View.spike_labels (View.visual view) = Some [].
Proof.
  destruct (show_waveforms_with_nothing_selected
              (Session.load_from GlobalHistory.new ViewManager.new
                 short_model [] 0).2)
    as (view & self' & Hrun & _ & _ & Hlabels).
  - vm_compute. reflexivity.
  - by exists view, self'.
Defined.

(** ** Loops that raise *)

Section RaisingLoop.

Context {S : Type} (body : M S unit).

(** A loop that raises has run its body on the elements before the one that
    raised, and has not touched the elements after it. *)
Lemma for_each_raises (xs xs' : list S) (e : exn) :
  for_each body xs = (Raise e, xs') →
  ∃ before before' x x' rest,
    xs = before ++ x :: rest
    ∧ xs' = before' ++ x' :: rest
    ∧ Forall2 (λ y y', body y = (Ok tt, y')) before before'
    ∧ body x = (Raise e, x').
Proof.
  revert xs'. induction xs as [|x rest IH]; intros xs' H; simpl in H.
  - discriminate.
  - destruct (body x) as [[[]|e0] x'] eqn:Hx.
    + destruct (for_each body rest) as [o rest'] eqn:Hrest.
      inversion H; subst.
      destruct (IH _ eq_refl) as (b & b' & y & y' & r & -> & -> & Hb & Hy).
      exists (x :: b), (x' :: b'), y, y', r.
      repeat split; try done. by constructor.
    + inversion H; subst.
      exists [], [], x, x', rest. repeat split; try done.
Qed.

(** What the body keeps of every element, whatever its outcome, the loop
    keeps of every element, whatever its outcome. *)
Lemma for_each_keeps (P : S → S → Prop) (xs : list S) :
  (∀ x, P x x) →
  (∀ x o x', body x = (o, x') → P x x') →
  Forall2 P xs (for_each body xs).2.
Proof.
  intros Hrefl Hbody. induction xs as [|x rest IH]; simpl; [constructor|].
  destruct (body x) as [[[]|e] x'] eqn:Hx.
  - destruct (for_each body rest) as [o rest']. simpl in *.
    constructor; [by eapply Hbody | exact IH].
  - simpl. constructor; [by eapply Hbody|].
    clear IH. induction rest; constructor; auto.
Qed.

End RaisingLoop.

(** Views that correspond one to one with the same identities. *)
Lemma same_idents (P : View.t → View.t → Prop) views views' :
  (∀ v v', P v v' → View.ident v' = View.ident v) →
  Forall2 P views views' → idents views' = idents views.
Proof.
  intros HP H. induction H as [|v v' vs vs' Hv _ IH]; [done|].
  unfold idents in *. rewrite !fmap_cons. by rewrite (HP _ _ Hv), IH.
Qed.

(** A refresh loop, whether it returns or raises, keeps the identity, the
    kind and the number of closes of every view, in order. *)
Lemma refresh_views_keeps_idents hook self o self' :
  keeps_view hook →
  Session.refresh_views hook self = (o, self') →
  idents (registered self') = idents (registered self).
Proof.
  intros Hkeep H. unfold Session.refresh_views, Session.on_views in H.
  match type of H with context [for_each ?b ?l] =>
    pose proof (for_each_keeps b
      (λ v v', View.ident v' = View.ident v) l (λ _, eq_refl)) as Hloop;
    destruct (for_each b l) as [o1 views'] eqn:Hrun
  end.
  inversion H; subst. unfold registered; simpl.
  eapply same_idents; [|apply Hloop]; [done|].
  intros view o1 view' Hbody. unfold bind, when in Hbody.
  destruct (View.is_waveform_view view).
  - destruct (hook self view) as [[[]|e] view1] eqn:Hhook.
    + apply Hkeep in Hhook as (Hi & _). inversion Hbody; subst. done.
    + apply Hkeep in Hhook as (Hi & _). inversion Hbody; subst. done.
  - inversion Hbody; subst. done.
Qed.

(** ** A selection that raises *)

(** On a [WaveformView] the select hook returns or raises [IndexError], and
    which of the two depends on the session only. *)
Lemma select_hook_outcome self view :
  View.is_waveform_view view = true →
  (Session._update_waveforms_after_select self view).1
  = match fancy_index (BaseModel.waveforms (Session.model self))
            (Selector.selected_spikes (Session.selector self)),
          fancy_index (BaseModel.masks (Session.model self))
            (Selector.selected_spikes (Session.selector self)) with
    | Some _, Some _ => Ok tt
    | _, _ => Raise IndexError
    end.
Proof.
  intros Hw. unfold Session._update_waveforms_after_select. rewrite Hw.
  simpl. by repeat case_match.
Qed.

(** [Session.select] is not atomic.  It raises [UnknownCluster] with the
    session untouched when a cluster is not live for the selector.
    Otherwise it can only raise [IndexError], from the first registered
    [WaveformView]: by then the selection is already changed to the given
    clusters, the views before that one have had [update()] invoked, and
    that view and the views after it have not. *)
Theorem select_raises_halfway (self : Session.t) (clusters : list Z)
    (e : exn) (self' : Session.t) :
  Session.select clusters self = (Raise e, self') →
  (e = UnknownCluster ∧ self' = self
   ∧ ¬ Forall (λ c, c ∈ Selector.spike_clusters (Session.selector self))
         clusters)
  ∨ (e = IndexError
     ∧ Selector.selected_clusters (Session.selector self') = clusters
     ∧ ∃ before before' view view' rest,
         registered self = before ++ view :: rest
         ∧ registered self' = before' ++ view' :: rest
         ∧ Forall (λ v, View.is_waveform_view v = false) before
         ∧ Forall2 updated_once before before'
         ∧ View.is_waveform_view view = true
         ∧ View.ident view' = View.ident view
         ∧ View.updates view' = View.updates view).
Proof.
  unfold Session.select, bind, Session.on_selector,
    Selector.set_selected_clusters.
  case_bool_decide as Hlive.
  2: { intros H. inversion H; subst. by left. }
  set (s1 := Session.put_selector _ self).
  intros H. right.
  pose proof (refresh_views_frame _ _ _ _ H) as Hframe.
  unfold Session._update_after_select, Session.refresh_views,
    Session.on_views in H.
  match type of H with context [for_each ?b ?l] =>
    destruct (for_each b l) as [o1 views'] eqn:Hrun end.
  inversion H; subst o1 self'. clear H Hframe.
  apply for_each_raises in Hrun
    as (before & before' & view & view' & rest & Hviews & Hviews' & Hbefore
        & Hview).
  assert (View.is_waveform_view view = true
          ∧ Session._update_waveforms_after_select s1 view
            = (Raise e, view')) as [Hw Hhook].
  { unfold bind, when in Hview.
    destruct (View.is_waveform_view view); [|discriminate].
    split; [done|].
    by destruct (Session._update_waveforms_after_select s1 view)
         as [[[]|e0] v1]; inversion Hview. }
  pose proof (select_hook_outcome s1 view Hw) as Hout. rewrite Hhook in Hout.
  split.
  { simpl in Hout. by repeat case_match; inversion Hout. }
  split; [done|].
  exists before, before', view, view', rest.
  apply select_hook_keeps_view in Hhook as (Hi & _ & Hu).
  split; [exact Hviews|].
  split; [exact Hviews'|].
  split; [|split; [|done]].
  - apply Forall_forall. intros v Hv.
    apply list_elem_of_lookup in Hv as [i Hv].
    destruct (Forall2_lookup_l _ _ _ _ _ Hbefore Hv) as (v' & _ & Hbody).
    simpl in Hbody. unfold bind, when in Hbody.
    destruct (View.is_waveform_view v) eqn:Hwv; [|done].
    pose proof (select_hook_outcome s1 v Hwv) as Hout'.
    rewrite <- Hout in Hout'.
    destruct (Session._update_waveforms_after_select s1 v) as [[[]|e0] v1];
      simpl in Hout'; [discriminate | discriminate].
  - eapply Forall2_impl; [exact Hbefore|].
    intros v v' Hbody. simpl in Hbody. unfold bind, when in Hbody.
    destruct (View.is_waveform_view v) eqn:Hwv.
    + destruct (Session._update_waveforms_after_select s1 v)
        as [[[]|e0] v1] eqn:Hh; [|discriminate].
      apply select_hook_keeps_view in Hh as (? & ? & Hu1).
      inversion Hbody; subst. unfold updated_once; simpl. by rewrite Hu1.
    + inversion Hbody; subst. unfold updated_once; simpl. done.
Qed.

(** A selection in the session whose model lacks masks: the plain view in
    front was updated, the waveform view was not, and the selection is
    changed although the call raised. *)
Lemma select_raises_halfway_witness :
  ∃ self',
    Session.select [1] short_session = (Raise IndexError, self')
    ∧ Selector.selected_clusters (Session.selector self') = [1]
    ∧ (View.updates <$> registered short_session) = [0; 0]%nat
    ∧ (View.updates <$> registered self') = [1; 0]%nat.
Proof.
  exists (after (Session.select [1]) short_session).
  assert (Session.select [1] short_session
          = (Raise IndexError, after (Session.select [1]) short_session))
    as Hrun by (vm_compute; reflexivity).
  destruct (select_raises_halfway _ _ _ _ Hrun)
    as [(He & _)|(_ & Hsel & _)]; [discriminate|].
  split; [exact Hrun|]. split; [exact Hsel|].
  split; vm_compute; reflexivity.
Defined.

(** ** What each call writes *)

(** The refresh after a clustering change writes nothing to the views: it
    only invokes [update()]. *)
Lemma cluster_refresh_only_updates up self self' :
  Session.refresh_views
    (λ self, Session._update_waveforms_after_cluster self up) self
  = (Ok tt, self') →
  Forall2 only_updated (registered self) (registered self').
Proof.
  intros H. unfold Session.refresh_views, Session.on_views in H.
  match type of H with context [for_each ?b ?l] =>
    destruct (for_each b l) as [o views'] eqn:Hloop end.
  inversion H; subst. apply for_each_returns in Hloop.
  unfold registered; simpl.
  eapply Forall2_impl; [exact Hloop|].
  intros view view' Hbody. simpl in Hbody.
  unfold bind, when, ret, Session._update_waveforms_after_cluster,
    View.update, modify in Hbody.
  unfold only_updated, View.update, modify.
  destruct (View.is_waveform_view view) eqn:Hw;
    rewrite ?Hw in Hbody; simpl in Hbody;
    inversion Hbody; subst; simpl; by rewrite ?Hw.
Qed.

(** The shape of the session after [_update_after_cluster]. *)
Lemma update_after_cluster_shape up add_to_stack self :
  ∃ views',
    Session._update_after_cluster up add_to_stack self
    = (Ok tt,
       Session.put_views views'
         (if add_to_stack
          then Session.put_global_history
                 (GlobalHistory.action
                    (Session.PClustering (Session.clustering_obj self))
                    (Session._global_history self)) self
          else self))
    ∧ Forall2 only_updated (registered self) views'.
Proof.
  destruct (update_after_cluster_returns up add_to_stack self)
    as (self' & Hrun & _ & Hframe).
  exists (registered self'). rewrite Hrun, <- Hframe. split; [done|].
  unfold Session._update_after_cluster, bind, when, Session.record, modify
    in Hrun.
  destruct add_to_stack; simpl in Hrun;
    by apply cluster_refresh_only_updates in Hrun.
Qed.

(** A call that goes through the clustering either raises with the session
    untouched, or writes the clustering, one action and the update counts
    of the views. *)
Lemma clustering_call_shape
    (op : Clustering.t → outcome (Update * Clustering.t)) self :
  (∃ e,
     op (Session.clustering self) = Raise e
     ∧ (up' <- Session.on_clustering op ;;
        Session._update_after_cluster (Done up') true)%method self
       = (Raise e, self))
  ∨ (∃ up c' views',
       op (Session.clustering self) = Ok (up, c')
       ∧ (up' <- Session.on_clustering op ;;
          Session._update_after_cluster (Done up') true)%method self
         = (Ok tt,
            Session.put_views views'
              (Session.put_global_history
                 (GlobalHistory.action
                    (Session.PClustering (Session.clustering_obj self))
                    (Session._global_history self))
                 (Session.put_clustering c' self)))
       ∧ Forall2 only_updated (registered self) views').
Proof.
  unfold bind, Session.on_clustering.
  destruct (op (Session.clustering self)) as [[up c']|e] eqn:Hop.
  - right.
    destruct (update_after_cluster_shape (Done up) true
                (Session.put_clustering c' self)) as (views' & Hrun & Hv).
    exists up, c', views'. by rewrite Hrun.
  - left. by exists e.
Qed.

(** Calling a recorded process writes the object it names, and nothing
    else: the history, the views, the selector and the number of earlier
    clustering objects stay; the metadata stays the model's. *)
Lemma call_process_shape on_c on_md p self :
  let self' := (Session.call_process on_c on_md p self).2 in
  Session._global_history self' = Session._global_history self
  ∧ Session._view_manager self' = Session._view_manager self
  ∧ Session.selector self' = Session.selector self
  ∧ length (Session.detached self') = length (Session.detached self)
  ∧ (Session.cluster_metadata self
     = BaseModel.cluster_metadata (Session.model self) →
     Session.cluster_metadata self'
     = BaseModel.cluster_metadata (Session.model self'))
  ∧ (match p with
     | Session.PClustering obj =>
       obj ≠ Session.clustering_obj self →
       Session.clustering self' = Session.clustering self
     | Session.PClusterMetadata =>
       Session.clustering self' = Session.clustering self
     end).
Proof.
  unfold Session.call_process. destruct p as [obj|].
  - case_bool_decide as Hobj.
    + destruct (on_c _). simpl. by repeat split.
    + destruct (_ !! _); [|by repeat split].
      destruct (on_c _). simpl. repeat split; try done.
      by rewrite length_insert.
  - destruct (on_md _). simpl. by repeat split.
Qed.

(** The history call of undo and of redo reaches only the object that the
    action under the cursor names. *)
Lemma history_call_shape
    (on_c : Clustering.t → Update * Clustering.t)
    (on_md : ClusterMetadata.t → Update * ClusterMetadata.t)
    (step : (Session.process → Session.t → Update * Session.t) →
            GlobalHistory.t Session.process → Session.t →
            HistoryResult * GlobalHistory.t Session.process * Session.t)
    self :
  (∀ f h w,
     step f h w = (NoMoreHistory, h, w)
     ∨ ∃ p cur, p ∈ GlobalHistory.items h
                ∧ step f h w
                  = (Done (f p w).1, GlobalHistory.mk (GlobalHistory.items h)
                                       cur, (f p w).2)) →
  let '(r, h, s1) :=
    step (Session.call_process on_c on_md) (Session._global_history self)
         self in
  let self' := Session.put_global_history h s1 in
  recorded self' = recorded self
  ∧ registered self' = registered self
  ∧ Session.selector self' = Session.selector self
  ∧ length (Session.detached self') = length (Session.detached self)
  ∧ (Session.cluster_metadata self
     = BaseModel.cluster_metadata (Session.model self) →
     Session.cluster_metadata self'
     = BaseModel.cluster_metadata (Session.model self'))
  ∧ (history_refs_stale self →
     Session.clustering self' = Session.clustering self).
Proof.
  intros Hstep.
  destruct (Hstep (Session.call_process on_c on_md)
              (Session._global_history self) self)
    as [->|(p & cur & Hp & ->)].
  - by repeat split.
  - pose proof (call_process_shape on_c on_md p self)
      as (Hh & Hvm & Hsel & Hlen & Hmd & Hc).
    simpl in *. unfold registered; simpl.
    repeat split; try done.
    + by rewrite Hvm.
    + intros Hstale. unfold history_refs_stale in Hstale.
      rewrite Forall_forall in Hstale. specialize (Hstale p Hp).
      destruct p as [obj|]; [|done]. apply Hc. lia.
Qed.

Lemma undo_step_cases {A W : Type} (f : A → W → Update * W)
    (h : GlobalHistory.t A) (w : W) :
  GlobalHistory.undo f h w = (NoMoreHistory, h, w)
  ∨ ∃ p cur, p ∈ GlobalHistory.items h
             ∧ GlobalHistory.undo f h w
               = (Done (f p w).1, GlobalHistory.mk (GlobalHistory.items h) cur,
                  (f p w).2).
Proof.
  unfold GlobalHistory.undo. destruct (GlobalHistory.cursor h) as [|k];
    [by left|].
  destruct (GlobalHistory.items h !! k) as [p|] eqn:Hp; [|by left].
  right. exists p, k. split; [by eapply list_elem_of_lookup_2|].
  by destruct (f p w).
Qed.

Lemma redo_step_cases {A W : Type} (f : A → W → Update * W)
    (h : GlobalHistory.t A) (w : W) :
  GlobalHistory.redo f h w = (NoMoreHistory, h, w)
  ∨ ∃ p cur, p ∈ GlobalHistory.items h
             ∧ GlobalHistory.redo f h w
               = (Done (f p w).1, GlobalHistory.mk (GlobalHistory.items h) cur,
                  (f p w).2).
Proof.
  unfold GlobalHistory.redo.
  destruct (GlobalHistory.items h !! GlobalHistory.cursor h) as [p|] eqn:Hp;
    [|by left].
  right. exists p, (S (GlobalHistory.cursor h)).
  split; [by eapply list_elem_of_lookup_2|]. by destruct (f p w).
Qed.

(** The shape of the session after undo and after redo: what the history
    call left, with the views updated. *)
Lemma undo_shape self :
  ∃ up s1 views',
    Session.history_undo self = (Ok up, s1)
    ∧ Session.undo self = (Ok tt, Session.put_views views' s1)
    ∧ Forall2 only_updated (registered s1) views'.
Proof.
  unfold Session.undo, bind.
  destruct (Session.history_undo self) as [o s1] eqn:Hcall.
  assert (∃ up, o = Ok up) as [up ->].
  { unfold Session.history_undo in Hcall.
    destruct (GlobalHistory.undo _ _ _) as [[r h] s]. inversion Hcall.
    by eexists. }
  destruct (update_after_cluster_shape up false s1) as (views' & -> & Hv).
  by exists up, s1, views'.
Qed.

Lemma redo_shape self :
  ∃ up s1 views',
    Session.history_redo self = (Ok up, s1)
    ∧ Session.redo self = (Ok tt, Session.put_views views' s1)
    ∧ Forall2 only_updated (registered s1) views'.
Proof.
  unfold Session.redo, bind.
  destruct (Session.history_redo self) as [o s1] eqn:Hcall.
  assert (∃ up, o = Ok up) as [up ->].
  { unfold Session.history_redo in Hcall.
    destruct (GlobalHistory.redo _ _ _) as [[r h] s]. inversion Hcall.
    by eexists. }
  destruct (update_after_cluster_shape up false s1) as (views' & -> & Hv).
  by exists up, s1, views'.
Qed.

(** What undo and redo leave alone. *)
Lemma undo_frame self :
  let self' := after Session.undo self in
  Session.undo self = (Ok tt, self')
  ∧ recorded self' = recorded self
  ∧ Forall2 only_updated (registered self) (registered self')
  ∧ Session.selector self' = Session.selector self
  ∧ length (Session.detached self') = length (Session.detached self)
  ∧ (Session.cluster_metadata self
     = BaseModel.cluster_metadata (Session.model self) →
     Session.cluster_metadata self'
     = BaseModel.cluster_metadata (Session.model self'))
  ∧ (history_refs_stale self →
     Session.clustering self' = Session.clustering self).
Proof.
  destruct (undo_shape self) as (up & s1 & views' & Hcall & Hrun & Hviews).
  unfold after. rewrite Hrun. simpl.
  pose proof (history_call_shape Clustering.undo ClusterMetadata.undo
                (@GlobalHistory.undo _ _) self (@undo_step_cases _ _)) as H.
  unfold Session.history_undo in Hcall.
  destruct (GlobalHistory.undo _ _ _) as [[r h] s]. inversion Hcall; subst.
  simpl in H. destruct H as (H1 & H2 & H3 & H4 & H5 & H6).
  unfold registered in *. simpl in *.
  repeat split; try done. by rewrite <- H2.
Qed.

Lemma redo_frame self :
  let self' := after Session.redo self in
  Session.redo self = (Ok tt, self')
  ∧ recorded self' = recorded self
  ∧ Forall2 only_updated (registered self) (registered self')
  ∧ Session.selector self' = Session.selector self
  ∧ length (Session.detached self') = length (Session.detached self)
  ∧ (Session.cluster_metadata self
     = BaseModel.cluster_metadata (Session.model self) →
     Session.cluster_metadata self'
     = BaseModel.cluster_metadata (Session.model self'))
  ∧ (history_refs_stale self →
     Session.clustering self' = Session.clustering self).
Proof.
  destruct (redo_shape self) as (up & s1 & views' & Hcall & Hrun & Hviews).
  unfold after. rewrite Hrun. simpl.
  pose proof (history_call_shape Clustering.redo ClusterMetadata.redo
                (@GlobalHistory.redo _ _) self (@redo_step_cases _ _)) as H.
  unfold Session.history_redo in Hcall.
  destruct (GlobalHistory.redo _ _ _) as [[r h] s]. inversion Hcall; subst.
  simpl in H. destruct H as (H1 & H2 & H3 & H4 & H5 & H6).
  unfold registered in *. simpl in *.
  repeat split; try done. by rewrite <- H2.
Qed.

(** ** What reaches the views *)

(** The update handed to [_update_after_cluster] has no part in what the
    method does. *)
Lemma update_after_cluster_ignores_update up other add_to_stack self :
  Session._update_after_cluster other add_to_stack self
  = Session._update_after_cluster up add_to_stack self.
Proof. reflexivity. Qed.

(** A refresh that wrote nothing to the views, in a session that has kept
    its clustering object: every view shows what the session has now. *)
Lemma only_updated_in_place before after views views' :
  Session.clustering_obj after = Session.clustering_obj before →
  Forall2 only_updated views views' →
  Forall2 (refreshed_in_place before after) views views'.
Proof.
  intros Hobj Hviews. eapply Forall2_impl; [exact Hviews|].
  intros view view' Hview. split; [exact Hview|].
  unfold only_updated, View.update, modify in Hview. subst view'.
  unfold bound_to_clustering, bound_to_metadata, shown_partition,
    shown_metadata, Session.shown, Session.spike_clusters_of. simpl.
  split.
  - intros ->. simpl. rewrite Hobj. by rewrite bool_decide_eq_true_2.
  - by intros ->.
Qed.

(** What merge and split share, once the clustering has carried out the
    operation: the clustering is written, the clustering object is recorded,
    and the views are refreshed in place, whatever update is handed on. *)
Lemma clustering_call_outcome
    (op : Clustering.t → outcome (Update * Clustering.t)) self up c' :
  op (Session.clustering self) = Ok (up, c') →
  ∃ self',
    (up' <- Session.on_clustering op ;;
     Session._update_after_cluster (Done up') true)%method self
    = (Ok tt, self')
    ∧ Session.clustering self' = c'
    ∧ recorded_and_notified
        (Session.PClustering (Session.clustering_obj self)) self self'
    ∧ Forall2 (refreshed_in_place self self')
        (registered self) (registered self')
    ∧ Session.selector self' = Session.selector self
    ∧ Session.cluster_metadata self' = Session.cluster_metadata self
    ∧ (∀ other : HistoryResult,
         Session._update_after_cluster other true
           (Session.put_clustering c' self)
         = (Ok tt, self')).
Proof.
  intros Hop.
  destruct (delegated_to_clustering op self up c' Hop)
    as (self' & Hrun & Hc & Hrec).
  destruct (clustering_call_shape op self)
    as [(e & Hraise & _)|(up0 & c0 & views' & Hop0 & Hshape & Hviews)].
  { rewrite Hop in Hraise. discriminate. }
  rewrite Hop in Hop0. inversion Hop0; subst up0 c0.
  rewrite Hrun in Hshape. inversion Hshape as [Hself'].
  exists self'. split; [done|]. split; [exact Hc|]. split; [exact Hrec|].
  rewrite Hself'. repeat split.
  - by apply only_updated_in_place.
  - intros other.
    rewrite (update_after_cluster_ignores_update (Done up) other).
    unfold bind, Session.on_clustering in Hrun. rewrite Hop in Hrun.
    by rewrite Hrun, Hself'.
Qed.

(** C1.  Whenever the clustering carries out the merge (resp. the split),
    [Session.merge] (resp. [Session.split]) returns; the session's
    clustering is the one the delegate produced; exactly one action, the
    clustering object, is pushed on the global history; and [update()] is
    invoked once on every registered view.  The update of the delegate
    reaches no view: every view is the view it was with one [update()] more,
    and the session is the same whatever is handed to
    [_update_after_cluster] in place of that update. *)
Theorem merge_split_deliver_no_update (self : Session.t) :
  (∀ clusters up c',
     Clustering.merge clusters (Session.clustering self) = Ok (up, c') →
     ∃ self',
       Session.merge clusters self = (Ok tt, self')
       ∧ Session.clustering self' = c'
       ∧ recorded_and_notified
           (Session.PClustering (Session.clustering_obj self)) self self'
       ∧ Forall2 only_updated (registered self) (registered self')
       ∧ (∀ other : HistoryResult,
            Session._update_after_cluster other true
              (Session.put_clustering c' self)
            = (Ok tt, self')))
  ∧ (∀ spikes up c',
       Clustering.split spikes (Session.clustering self) = Ok (up, c') →
       ∃ self',
         Session.split spikes self = (Ok tt, self')
         ∧ Session.clustering self' = c'
         ∧ recorded_and_notified
             (Session.PClustering (Session.clustering_obj self)) self self'
         ∧ Forall2 only_updated (registered self) (registered self')
         ∧ (∀ other : HistoryResult,
              Session._update_after_cluster other true
                (Session.put_clustering c' self)
              = (Ok tt, self'))).
Proof.
  split.
  - intros clusters up c' Hop.
    destruct (clustering_call_outcome _ self up c' Hop)
      as (self' & Hrun & Hc & Hrec & Hviews & _ & _ & Hany).
    exists self'. repeat split; try done.
    + by destruct Hrec.
    + by destruct Hrec as (_ & ? & _).
    + by destruct Hrec as (_ & _ & ?).
    + eapply Forall2_impl; [exact Hviews|]. by intros ?? [? _].
  - intros spikes up c' Hop.
    destruct (clustering_call_outcome _ self up c' Hop)
      as (self' & Hrun & Hc & Hrec & Hviews & _ & _ & Hany).
    exists self'. repeat split; try done.
    + by destruct Hrec.
    + by destruct Hrec as (_ & ? & _).
    + by destruct Hrec as (_ & _ & ?).
    + eapply Forall2_impl; [exact Hviews|]. by intros ?? [? _].
Qed.

(** The merge of clusters 0 and 1 of the example session, with its view: the
    view is refreshed, and handing [NoMoreHistory] to
    [_update_after_cluster] instead of the update of the merge gives the
    same session. *)
Lemma merge_split_deliver_no_update_witness :
  ∃ self',
    Session.merge [0; 1] viewed_session = (Ok tt, self')
    ∧ Clustering.spike_clusters (Session.clustering self') = [3; 3; 3; 3; 2]
    ∧ recorded_and_notified (Session.PClustering 0) viewed_session self'
    ∧ length (registered viewed_session) = 1%nat
    ∧ Forall2 only_updated (registered viewed_session) (registered self')
    ∧ Session._update_after_cluster NoMoreHistory true
        (Session.put_clustering (Session.clustering self') viewed_session)
      = (Ok tt, self').
Proof.
  destruct (proj1 (merge_split_deliver_no_update viewed_session) [0; 1]
              (mkUpdate {[3]} {[0; 1]} {[0; 1; 2; 3]}%nat Cluster)
              (Clustering.mk [3; 3; 3; 3; 2] 4
                 [Clustering.mkAction
                    [(0%nat, 0); (1%nat, 0); (2%nat, 1); (3%nat, 1)] 3] []))
    as (self' & Hrun & Hc & Hrec & Hviews & Hany).
  - vm_compute. reflexivity.
  - exists self'. split; [exact Hrun|]. split; [by rewrite Hc|].
    split; [exact Hrec|]. split; [reflexivity|]. split; [exact Hviews|].
    rewrite Hc. apply Hany.
Defined.

(** C4.  [Session.undo] and [Session.redo] always return.  The recorded
    actions of the global history are afterwards the same sequence as before
    (no action is pushed), and [update()] is invoked once on every registered
    view.  The result of the history call reaches no view: every view is the
    view it was with one [update()] more, and the session is the same
    whatever is handed to [_update_after_cluster] in place of that
    result. *)
Theorem undo_redo_deliver_no_update (self : Session.t) :
  (∃ up self1 self',
     Session.history_undo self = (Ok up, self1)
     ∧ Session.undo self = (Ok tt, self')
     ∧ recorded self' = recorded self
     ∧ notified self self'
     ∧ Forall2 only_updated (registered self) (registered self')
     ∧ (∀ other : HistoryResult,
          Session._update_after_cluster other false self1 = (Ok tt, self')))
  ∧ (∃ up self1 self',
       Session.history_redo self = (Ok up, self1)
       ∧ Session.redo self = (Ok tt, self')
       ∧ recorded self' = recorded self
       ∧ notified self self'
       ∧ Forall2 only_updated (registered self) (registered self')
       ∧ (∀ other : HistoryResult,
            Session._update_after_cluster other false self1
            = (Ok tt, self'))).
Proof.
  split.
  - destruct (history_call_then_refresh _ self (history_undo_returns self))
      as (up & self1 & self' & H1 & H2 & H3 & H4 & H5 & _).
    destruct (undo_frame self) as (Hrun & _ & Hviews & _).
    change (Session.undo self = (Ok tt, self')) in H2.
    rewrite H2 in Hrun. inversion Hrun as [Hself']. clear Hrun.
    exists up, self1, self'. subst self'. repeat split; try done.
  - destruct (history_call_then_refresh _ self (history_redo_returns self))
      as (up & self1 & self' & H1 & H2 & H3 & H4 & H5 & _).
    destruct (redo_frame self) as (Hrun & _ & Hviews & _).
    change (Session.redo self = (Ok tt, self')) in H2.
    rewrite H2 in Hrun. inversion Hrun as [Hself']. clear Hrun.
    exists up, self1, self'. subst self'. repeat split; try done.
Qed.

(** Undoing the merge of the example session: the history returns an update
    (clusters 0 and 1 are back, cluster 3 is gone), and the one registered
    view is the view it was with one [update()] more. *)
Lemma undo_redo_deliver_no_update_witness :
  ∃ up self',
    (Session.history_undo merged_session).1 = Ok (Done up)
    ∧ added up = {[0; 1]}
    ∧ removed up = {[3]}
    ∧ Session.undo merged_session = (Ok tt, self')
    ∧ recorded self' = [Session.PClustering 0]
    ∧ length (registered merged_session) = 1%nat
    ∧ Forall2 only_updated (registered merged_session) (registered self').
Proof.
  destruct (proj1 (undo_redo_deliver_no_update merged_session))
    as (up & self1 & self' & Hcall & Hrun & Hrec & _ & Hviews & _).
  assert ((Session.history_undo merged_session).1
          = Ok (Done (mkUpdate {[0; 1]} {[3]} {[0; 1; 2; 3]}%nat Cluster)))
    as Hup by (vm_compute; reflexivity).
  exists (mkUpdate {[0; 1]} {[3]} {[0; 1; 2; 3]}%nat Cluster), self'.
  split; [exact Hup|]. split; [reflexivity|]. split; [reflexivity|].
  split; [exact Hrun|]. split; [by rewrite Hrec|].
  split; [reflexivity | exact Hviews].
Defined.

(** C2.  [Session.move] always returns.  The metadata of the session is the
    one [ClusterMetadata.set] produced for the property [group], and exactly
    one action, the metadata object, is pushed on the global history.  No
    view is refreshed: the registered view objects are as they were, no
    [update()] having been invoked, although a view bound to the metadata
    object now shows the changed metadata.  The undo of that very move does
    refresh the views: it returns with [update()] invoked once on every
    registered view. *)
Theorem move_refreshes_no_view (self : Session.t)
    (clusters : list Z) (group : ClusterMetadata.value) :
  ∃ a md' self' undone,
    ClusterMetadata.set clusters "group" group (Session.cluster_metadata self)
    = (Ok a, md')
    ∧ Session.move clusters group self = (Ok tt, self')
    ∧ Session.cluster_metadata self' = md'
    ∧ recorded self' = take (cursor self) (recorded self)
                         ++ [Session.PClusterMetadata]
    ∧ cursor self' = length (recorded self')
    ∧ registered self' = registered self
    ∧ (registered self ≠ [] → ¬ notified self self')
    ∧ Forall (λ view, bound_to_metadata view →
                      shown_metadata self' view = Some md')
        (registered self')
    ∧ Session.undo self' = (Ok tt, undone)
    ∧ notified self' undone.
Proof.
  destruct (move_returns self clusters group) as (a & md' & Hset & Hmove).
  destruct (history_call_then_refresh _
              (Session.put_global_history
                 (GlobalHistory.action Session.PClusterMetadata
                    (Session._global_history self))
                 (Session.put_cluster_metadata md' self))
              (history_undo_returns _))
    as (up & self1 & undone & _ & Hundo & _ & _ & Hnotified & _).
  eexists a, md', _, undone. split; [exact Hset|]. split; [exact Hmove|].
  split; [done|]. split; [|split; [|split; [done|split; [|split; [|done]]]]].
  - unfold recorded, cursor; simpl. apply action_items.
  - unfold recorded, cursor; simpl. apply action_cursor.
  - unfold notified, registered; simpl. intros Hviews Hall.
    destruct (ViewManager.views (Session._view_manager self))
      as [|view views]; [done|].
    inversion Hall as [|? ? ? ? (_ & _ & Hupdates) _]; subst. lia.
  - apply Forall_forall. intros view _ Hbound.
    unfold bound_to_metadata in Hbound.
    unfold shown_metadata, Session.shown. simpl. by rewrite Hbound.
Qed.

(** Moving clusters 0 and 1 of the example session to the group [good]:
    the one registered view is left without [update()], and the undo of the
    move invokes it. *)
Lemma move_refreshes_no_view_witness :
  ∃ self' undone,
    Session.move [0; 1] (ClusterMetadata.VStr "good") viewed_session
    = (Ok tt, self')
    ∧ recorded self' = [Session.PClusterMetadata]
    ∧ length (registered viewed_session) = 1%nat
    ∧ registered self' = registered viewed_session
    ∧ ¬ notified viewed_session self'
    ∧ Session.undo self' = (Ok tt, undone)
    ∧ notified self' undone.
Proof.
  destruct (move_refreshes_no_view viewed_session [0; 1]
              (ClusterMetadata.VStr "good"))
    as (a & md' & self' & undone & _ & Hmove & _ & Hrec & _ & Hviews
        & Hnot & _ & Hundo & Hnotified).
  exists self', undone. split; [exact Hmove|].
  split; [rewrite Hrec; vm_compute; reflexivity|].
  split; [reflexivity|]. split; [exact Hviews|].
  split; [apply Hnot; vm_compute; discriminate|].
  split; [exact Hundo | exact Hnotified].
Defined.

(** C6.  Constructing a session over a model leaves the global history
    empty, with no view registered yet.  A later load through
    [_update_after_load] always returns and invokes [update()] once on every
    registered view, but it does not clear the history: the recorded actions
    and the cursor are as they were, while the clustering of the session is
    a new object over the model's vector, so that the clustering actions
    still recorded are those of an object of an earlier load. *)
Theorem reload_leaves_history_uncleared :
  (∀ m : BaseModel.t,
     ∃ self,
       Session.__init__ (PyBaseModel m) = Ok self
       ∧ Session._global_history self = GlobalHistory.new
       ∧ recorded self = []
       ∧ registered self = [])
  ∧ (∀ self : Session.t,
       ∃ self',
         Session._update_after_load self = (Ok tt, self')
         ∧ Session._global_history self' = Session._global_history self
         ∧ notified self self'
         ∧ Session.clustering self'
           = Clustering.new (BaseModel.spike_clusters (Session.model self))
         ∧ Session.clustering_obj self' = S (Session.clustering_obj self)).
Proof.
  split.
  - intros m. unfold Session.__init__; cbn [as_BaseModel].
    destruct (load_from_returns GlobalHistory.new ViewManager.new m [] 0)
      as (self & -> & Hh & _ & Hviews & _).
    exists self. split; [done|]. split; [done|].
    split; [by unfold recorded; rewrite Hh|].
    by inversion Hviews.
  - intros self. unfold Session._update_after_load.
    destruct (load_from_returns (Session._global_history self)
                (Session._view_manager self) (Session.model self)
                (Session.detached self ++ [Session.clustering self])
                (Session.next_view self))
      as (self' & -> & Hh & _ & Hviews & _ & _ & Hc & _ & Hd).
    exists self'. repeat split; try done.
    unfold Session.clustering_obj. rewrite Hd, length_app. simpl. lia.
Qed.

(** A load after the merge of the example session: the merge is still
    recorded, as an action of clustering object 0, while the session's
    clustering is object 1, back at the model's partition. *)
Lemma reload_leaves_history_uncleared_witness :
  recorded merged_session = [Session.PClustering 0]
  ∧ ∃ self',
      Session._update_after_load merged_session = (Ok tt, self')
      ∧ recorded self' = [Session.PClustering 0]
      ∧ recorded self' ≠ []
      ∧ notified merged_session self'
      ∧ Session.clustering_obj self' = 1%nat
      ∧ Clustering.spike_clusters (Session.clustering self')
        = [0; 0; 1; 1; 2].
Proof.
  split; [vm_compute; reflexivity|].
  destruct (proj2 reload_leaves_history_uncleared merged_session)
    as (self' & Hrun & Hh & Hnotified & Hc & Hobj).
  exists self'. split; [exact Hrun|].
  assert (recorded self' = [Session.PClustering 0]) as Hrec
    by (unfold recorded; rewrite Hh; vm_compute; reflexivity).
  split; [exact Hrec|]. split; [by rewrite Hrec|].
  split; [exact Hnotified|]. split; [by rewrite Hobj|].
  rewrite Hc. vm_compute. reflexivity.
Defined.

(** ** Clustering changes and the rest of the session *)

(** A merge or a split that returns has written the clustering and the
    history only.  The selector is not called: its selected clusters and its
    cap are as before.  The metadata is as before.  Nothing is written to
    the views: each is the same view with one [update()] more, bound to the
    objects it was bound to, so that a view bound to the session's
    clustering shows the new partition.  Undo and redo always return and
    likewise leave the selection and the bindings of the views as they
    were; the views show the partition and the metadata that the call
    left. *)
Theorem clustering_changes_refresh_in_place (self : Session.t) :
  (∀ clusters self',
     Session.merge clusters self = (Ok tt, self') →
     Selector.selected_clusters (Session.selector self')
     = Selector.selected_clusters (Session.selector self)
     ∧ Selector.n_spikes_max (Session.selector self')
       = Selector.n_spikes_max (Session.selector self)
     ∧ Session.cluster_metadata self' = Session.cluster_metadata self
     ∧ Forall2 (refreshed_in_place self self')
         (registered self) (registered self'))
  ∧ (∀ spikes self',
       Session.split spikes self = (Ok tt, self') →
       Selector.selected_clusters (Session.selector self')
       = Selector.selected_clusters (Session.selector self)
       ∧ Selector.n_spikes_max (Session.selector self')
         = Selector.n_spikes_max (Session.selector self)
       ∧ Session.cluster_metadata self' = Session.cluster_metadata self
       ∧ Forall2 (refreshed_in_place self self')
           (registered self) (registered self'))
  ∧ (∃ self',
       Session.undo self = (Ok tt, self')
       ∧ Selector.selected_clusters (Session.selector self')
         = Selector.selected_clusters (Session.selector self)
       ∧ Selector.n_spikes_max (Session.selector self')
         = Selector.n_spikes_max (Session.selector self)
       ∧ Forall2 (refreshed_in_place self self')
           (registered self) (registered self'))
  ∧ (∃ self',
       Session.redo self = (Ok tt, self')
       ∧ Selector.selected_clusters (Session.selector self')
         = Selector.selected_clusters (Session.selector self)
       ∧ Selector.n_spikes_max (Session.selector self')
         = Selector.n_spikes_max (Session.selector self)
       ∧ Forall2 (refreshed_in_place self self')
           (registered self) (registered self')).
Proof.
  split; [|split; [|split]].
  - intros clusters self' Hrun.
    destruct (Clustering.merge clusters (Session.clustering self))
      as [[up c']|e] eqn:Hop.
    + destruct (clustering_call_outcome _ self up c' Hop)
        as (s & Hs & _ & _ & Hviews & Hsel & Hmd & _).
      unfold Session.merge in Hrun. rewrite Hs in Hrun.
      inversion Hrun; subst s. by rewrite Hsel.
    + unfold Session.merge, bind, Session.on_clustering in Hrun.
      rewrite Hop in Hrun. discriminate.
  - intros spikes self' Hrun.
    destruct (Clustering.split spikes (Session.clustering self))
      as [[up c']|e] eqn:Hop.
    + destruct (clustering_call_outcome _ self up c' Hop)
        as (s & Hs & _ & _ & Hviews & Hsel & Hmd & _).
      unfold Session.split in Hrun. rewrite Hs in Hrun.
      inversion Hrun; subst s. by rewrite Hsel.
    + unfold Session.split, bind, Session.on_clustering in Hrun.
      rewrite Hop in Hrun. discriminate.
  - destruct (undo_frame self) as (Hrun & _ & Hviews & Hsel & Hlen & _).
    eexists. split; [exact Hrun|]. rewrite Hsel.
    split; [done|]. split; [done|].
    by apply only_updated_in_place.
  - destruct (redo_frame self) as (Hrun & _ & Hviews & Hsel & Hlen & _).
    eexists. split; [exact Hrun|]. rewrite Hsel.
    split; [done|]. split; [done|].
    by apply only_updated_in_place.
Qed.

(** Selecting clusters 0 and 1 and then merging them: the selector still
    has clusters 0 and 1 selected, and the view shows the merged
    partition. *)
Lemma clustering_changes_refresh_in_place_witness :
  ∃ selected self',
    Session.select [0; 1] viewed_session = (Ok tt, selected)
    ∧ Session.merge [0; 1] selected = (Ok tt, self')
    ∧ Selector.selected_clusters (Session.selector self') = [0; 1]
    ∧ Clustering.cluster_labels (Session.clustering self') = [2; 3]
    ∧ Forall2 (refreshed_in_place selected self')
        (registered selected) (registered self')
    ∧ shown_partition self' <$> registered self' = [Some [3; 3; 3; 3; 2]].
Proof.
  exists (after (Session.select [0; 1]) viewed_session),
         (after (Session.merge [0; 1])
                (after (Session.select [0; 1]) viewed_session)).
  assert (Session.merge [0; 1] (after (Session.select [0; 1]) viewed_session)
          = (Ok tt, after (Session.merge [0; 1])
                      (after (Session.select [0; 1]) viewed_session)))
    as Hrun by (vm_compute; reflexivity).
  destruct (proj1 (clustering_changes_refresh_in_place
                     (after (Session.select [0; 1]) viewed_session))
              [0; 1] _ Hrun) as (Hsel & _ & _ & Hviews).
  split; [vm_compute; reflexivity|]. split; [exact Hrun|].
  split; [rewrite Hsel; vm_compute; reflexivity|].
  split; [vm_compute; reflexivity|].
  split; [exact Hviews | vm_compute; reflexivity].
Defined.

(** ** Invariants of the reachable sessions *)

(** [Session.select] writes the selector and the views, whether it returns
    or raises. *)
Lemma select_frame clusters self :
  let self' := after (Session.select clusters) self in
  Session._global_history self' = Session._global_history self
  ∧ Session.model self' = Session.model self
  ∧ Session.clustering self' = Session.clustering self
  ∧ Session.cluster_metadata self' = Session.cluster_metadata self
  ∧ Session.detached self' = Session.detached self
  ∧ idents (registered self') = idents (registered self).
Proof.
  unfold after, Session.select, bind, Session.on_selector.
  destruct (Selector.set_selected_clusters _ _) as [sel|e]; [|done].
  destruct (Session._update_after_select _) as [o self'] eqn:Hrun. simpl.
  pose proof (refresh_views_frame _ _ _ _ Hrun) as ->.
  pose proof (refresh_views_keeps_idents _ _ _ _ select_hook_keeps_view Hrun)
    as Hid.
  by repeat split.
Qed.

(** One step of a comprehension. *)
Lemma comprehension_cons {S A B : Type} (f : A → M S B) x rest (s : S) :
  Session.comprehension f (x :: rest) s
  = match f x s with
    | (Ok y, s1) =>
      match Session.comprehension f rest s1 with
      | (Ok ys, s2) => (Ok (y :: ys), s2)
      | (Raise e, s2) => (Raise e, s2)
      end
    | (Raise e, s1) => (Raise e, s1)
    end.
Proof. reflexivity. Qed.

(** The colour queries write the metadata, through to the model, and
    nothing else. *)
Lemma colors_frame labels self :
  let self' :=
    (Session.comprehension
       (λ cluster,
          Session.on_cluster_metadata (ClusterMetadata.get cluster "color"))
       labels self).2 in
  Session._global_history self' = Session._global_history self
  ∧ Session._view_manager self' = Session._view_manager self
  ∧ Session.detached self' = Session.detached self
  ∧ (Session.cluster_metadata self
     = BaseModel.cluster_metadata (Session.model self) →
     Session.cluster_metadata self'
     = BaseModel.cluster_metadata (Session.model self')).
Proof.
  revert self. induction labels as [|cluster rest IH]; intros self.
  - done.
  - specialize (IH (Session.put_cluster_metadata
                      (ClusterMetadata.touch cluster
                         (Session.cluster_metadata self)) self)).
    destruct (colors_comprehension rest
                (Session.put_cluster_metadata
                   (ClusterMetadata.touch cluster
                      (Session.cluster_metadata self)) self))
      as (self' & Hrun & _).
    rewrite comprehension_cons, get_color_returns, Hrun.
    rewrite Hrun in IH. simpl in *.
    destruct IH as (Hh & Hvm & Hd & Hmd).
    repeat split; try done. intros _. by apply Hmd.
Qed.

(** Recording one more action keeps the clustering objects that the history
    names in existence. *)
Lemma recorded_action_valid (p : Session.process) (h : GlobalHistory.t _)
    (n : nat) :
  Forall (λ p, match p with
               | Session.PClustering obj => (obj ≤ n)%nat
               | Session.PClusterMetadata => True
               end) (GlobalHistory.items h) →
  match p with
  | Session.PClustering obj => (obj ≤ n)%nat
  | Session.PClusterMetadata => True
  end →
  Forall (λ p, match p with
               | Session.PClustering obj => (obj ≤ n)%nat
               | Session.PClusterMetadata => True
               end) (GlobalHistory.items (GlobalHistory.action p h)).
Proof.
  intros Hh Hp. rewrite action_items. apply Forall_app. split.
  - by apply Forall_take.
  - by constructor.
Qed.

(** A constructed session: empty history, the model, its metadata. *)
Lemma init_model_facts m :
  ∃ self,
    Session.__init__ (PyBaseModel m) = Ok self
    ∧ Session._global_history self = GlobalHistory.new
    ∧ Session.model self = m
    ∧ Session.cluster_metadata self = BaseModel.cluster_metadata m.
Proof.
  unfold Session.__init__; cbn [as_BaseModel].
  destruct (load_from_returns GlobalHistory.new ViewManager.new m [] 0)
    as (self & -> & Hh & _ & _ & Hm & _ & _ & Hmd & _).
  by exists self.
Qed.

(** Every call keeps the two invariants: the clustering objects named in the
    history exist, and the metadata of the session is the metadata of its
    model. *)
Lemma run_keeps_invariants c self :
  history_refs_valid self
  ∧ Session.cluster_metadata self
    = BaseModel.cluster_metadata (Session.model self) →
  history_refs_valid (run c self)
  ∧ Session.cluster_metadata (run c self)
    = BaseModel.cluster_metadata (Session.model (run c self)).
Proof.
  intros [Hvalid Hmd]. unfold history_refs_valid, recorded in *.
  destruct c as [clusters|clusters|spikes|clusters group| | | | |view|];
    simpl.
  - destruct (select_frame clusters self) as (Hh & Hm & _ & Hc & Hd & _).
    unfold Session.clustering_obj. rewrite Hh, Hm, Hc, Hd. done.
  - unfold after, Session.merge.
    destruct (clustering_call_shape (Clustering.merge clusters) self)
      as [(e & _ & ->)|(up & c' & views' & _ & -> & _)]; simpl; [done|].
    split; [|done]. by apply recorded_action_valid.
  - unfold after, Session.split.
    destruct (clustering_call_shape (Clustering.split spikes) self)
      as [(e & _ & ->)|(up & c' & views' & _ & -> & _)]; simpl; [done|].
    split; [|done]. by apply recorded_action_valid.
  - unfold after.
    destruct (move_returns self clusters group) as (a & md' & _ & ->).
    simpl. split; [|done]. by apply recorded_action_valid.
  - destruct (undo_frame self) as (_ & Hrec & _ & _ & Hlen & Hsync & _).
    unfold recorded, Session.clustering_obj in *. rewrite Hrec, Hlen.
    split; [done | by apply Hsync].
  - destruct (redo_frame self) as (_ & Hrec & _ & _ & Hlen & Hsync & _).
    unfold recorded, Session.clustering_obj in *. rewrite Hrec, Hlen.
    split; [done | by apply Hsync].
  - unfold after, Session._update_after_load.
    destruct (load_from_returns (Session._global_history self)
                (Session._view_manager self) (Session.model self)
                (Session.detached self ++ [Session.clustering self])
                (Session.next_view self))
      as (self' & -> & Hh & _ & _ & Hm & _ & _ & Hmd' & Hd).
    simpl. unfold Session.clustering_obj. rewrite Hh, Hd, Hmd', Hm.
    split; [|done]. rewrite length_app. simpl.
    eapply Forall_impl; [exact Hvalid|].
    intros [obj|]; [|done]. unfold Session.clustering_obj. lia.
  - unfold after.
    destruct (Session.show_waveforms self) as [o self'] eqn:Hrun.
    destruct (show_waveforms_appends _ _ _ Hrun)
      as (_ & _ & _ & _ & _ & _ & (Hh & Hm & _ & _ & Hc & Hd) & _).
    simpl. unfold Session.clustering_obj. rewrite Hh, Hm, Hc, Hd. done.
  - unfold after.
    destruct (close_view_returns self view)
      as (view' & self' & -> & _ & _ & _ & _ & _
          & (Hh & Hm & _ & _ & Hc & Hd)).
    simpl. unfold Session.clustering_obj. rewrite Hh, Hm, Hc, Hd. done.
  - unfold after, Session.cluster_colors, bind, Session.cluster_labels, gets.
    destruct (colors_frame (Clustering.cluster_labels
                              (Session.clustering self)) self)
      as (Hh & _ & Hd & Hsync).
    unfold Session.clustering_obj. rewrite Hh, Hd.
    split; [done | by apply Hsync].
Qed.

(** The two invariants hold in every reachable session. *)
Lemma reachable_invariants self :
  reachable self →
  history_refs_valid self
  ∧ Session.cluster_metadata self
    = BaseModel.cluster_metadata (Session.model self).
Proof.
  induction 1 as [m self Hinit|c self _ IH].
  - pose proof (init_model_facts m) as (s & Hs & Hh & Hm & Hmd).
    rewrite Hinit in Hs. inversion Hs; subst s.
    unfold history_refs_valid, recorded. rewrite Hh, Hm, Hmd. done.
  - by apply run_keeps_invariants.
Qed.

(** The example sessions are reachable. *)
Lemma merged_session_reachable : reachable merged_session.
Proof.
  apply (reachable_call (CallMerge [0; 1])).
  apply (reachable_call CallShowWaveforms).
  apply (reachable_init example_model). vm_compute. reflexivity.
Qed.

(** In every session reachable through the constructor and the methods,
    each clustering object that the history names is at hand when undo or
    redo reaches for it: it is the object bound to [self.clustering] or one
    kept from an earlier load. *)
Theorem history_names_existing_clusterings (self : Session.t) :
  reachable self →
  ∀ obj,
    Session.PClustering obj ∈ recorded self →
    obj = Session.clustering_obj self
    ∨ is_Some (Session.detached self !! obj).
Proof.
  intros Hreach obj Hin.
  destruct (reachable_invariants self Hreach) as [Hvalid _].
  unfold history_refs_valid in Hvalid. rewrite Forall_forall in Hvalid.
  specialize (Hvalid _ Hin). simpl in Hvalid.
  destruct (decide (obj = Session.clustering_obj self)) as [->|Hne];
    [by left|].
  right. apply lookup_lt_is_Some. unfold Session.clustering_obj in *. lia.
Qed.

(** After a merge and a reload, the action of the merge names the clustering
    of the first load, which the session has kept. *)
Lemma history_names_existing_clusterings_witness :
  recorded (run CallUpdateAfterLoad merged_session) = [Session.PClustering 0]
  ∧ Session.clustering_obj (run CallUpdateAfterLoad merged_session) = 1%nat
  ∧ is_Some
      (Session.detached (run CallUpdateAfterLoad merged_session) !! 0%nat).
Proof.
  split; [vm_compute; reflexivity|]. split; [vm_compute; reflexivity|].
  destruct (history_names_existing_clusterings
              (run CallUpdateAfterLoad merged_session)
              (reachable_call CallUpdateAfterLoad _ merged_session_reachable)
              0%nat) as [Heq|Hsome].
  - vm_compute. apply elem_of_cons. by left.
  - vm_compute in Heq. discriminate.
  - exact Hsome.
Defined.

(** In every reachable session the metadata the session works on is the
    metadata of its model, which [_update_after_load] bound to it: what a
    move, an undo or a colour query writes is seen through the model. *)
Theorem session_metadata_is_model_metadata (self : Session.t) :
  reachable self →
  Session.cluster_metadata self
  = BaseModel.cluster_metadata (Session.model self).
Proof. intros Hreach. by destruct (reachable_invariants self Hreach). Qed.

(** After moving cluster 0 to the group [good], the model's metadata has
    that group for cluster 0. *)
Lemma session_metadata_is_model_metadata_witness :
  ClusterMetadata.lookup
    (BaseModel.cluster_metadata
       (Session.model
          (run (CallMove [0] (ClusterMetadata.VStr "good")) merged_session)))
    0 "group"
  = Some (ClusterMetadata.VStr "good").
Proof.
  rewrite <- (session_metadata_is_model_metadata
                (run (CallMove [0] (ClusterMetadata.VStr "good"))
                     merged_session)
                (reachable_call _ _ merged_session_reachable)).
  vm_compute. reflexivity.
Defined.

(** ** Undo after a reload *)

(** A reload leaves no action of the new clustering in the history. *)
Lemma reload_makes_history_stale self :
  history_refs_valid self →
  history_refs_stale (run CallUpdateAfterLoad self)
  ∧ Session.clustering (run CallUpdateAfterLoad self)
    = Clustering.new (BaseModel.spike_clusters (Session.model self)).
Proof.
  intros Hvalid. simpl. unfold after, Session._update_after_load.
  destruct (load_from_returns (Session._global_history self)
              (Session._view_manager self) (Session.model self)
              (Session.detached self ++ [Session.clustering self])
                (Session.next_view self))
    as (self' & -> & Hh & _ & _ & _ & _ & Hc & _ & Hd).
  simpl. split; [|exact Hc].
  unfold history_refs_stale, history_refs_valid, recorded,
    Session.clustering_obj in *.
  rewrite Hh, Hd, length_app. simpl.
  eapply Forall_impl; [exact Hvalid|]. intros [obj|]; [|done]. lia.
Qed.

(** Undo and redo keep a stale history stale and the clustering as it is. *)
Lemma undo_redo_stale (c : call) self :
  c = CallUndo ∨ c = CallRedo →
  history_refs_stale self →
  history_refs_stale (run c self)
  ∧ Session.clustering (run c self) = Session.clustering self.
Proof.
  intros [-> | ->] Hstale; simpl.
  - destruct (undo_frame self) as (_ & Hrec & _ & _ & Hlen & _ & Hc).
    split; [|by apply Hc].
    unfold history_refs_stale, Session.clustering_obj in *.
    by rewrite Hrec, Hlen.
  - destruct (redo_frame self) as (_ & Hrec & _ & _ & Hlen & _ & Hc).
    split; [|by apply Hc].
    unfold history_refs_stale, Session.clustering_obj in *.
    by rewrite Hrec, Hlen.
Qed.

(** After a reload of a reachable session, no sequence of undos and redos
    changes the clustering of the session: it stays the clustering that the
    reload built from the model's vector.  The actions that the history
    still holds belong to the clustering objects of earlier loads, and it is
    those that undo and redo revert and reapply. *)
Theorem undo_after_reload_misses_clustering (self : Session.t)
    (calls : list call) :
  reachable self →
  Forall (λ c, c = CallUndo ∨ c = CallRedo) calls →
  Session.clustering
    (foldl (λ s c, run c s) (run CallUpdateAfterLoad self) calls)
  = Clustering.new (BaseModel.spike_clusters (Session.model self)).
Proof.
  intros Hreach Hcalls.
  destruct (reachable_invariants self Hreach) as [Hvalid _].
  destruct (reload_makes_history_stale self Hvalid) as [Hstale <-].
  revert Hstale. generalize (run CallUpdateAfterLoad self) as s.
  induction Hcalls as [|c calls Hc _ IH]; intros s Hstale; simpl; [done|].
  destruct (undo_redo_stale c s Hc Hstale) as [Hstale' <-].
  by apply IH.
Qed.

(** Merge, reload, then undo, redo, undo: the history holds the merge, yet
    the partition stays the one of the model. *)
Lemma undo_after_reload_misses_clustering_witness :
  recorded (run CallUpdateAfterLoad merged_session) = [Session.PClustering 0]
  ∧ Clustering.spike_clusters
      (Session.clustering
         (foldl (λ s c, run c s) (run CallUpdateAfterLoad merged_session)
            [CallUndo; CallRedo; CallUndo]))
    = [0; 0; 1; 1; 2].
Proof.
  split; [vm_compute; reflexivity|].
  rewrite (undo_after_reload_misses_clustering merged_session
             [CallUndo; CallRedo; CallUndo] merged_session_reachable).
  - vm_compute. reflexivity.
  - repeat (apply List.Forall_cons; [first [by left | by right]|]).
    apply List.Forall_nil.
Defined.

(** ** Views across calls *)

Lemma only_updated_idents views views' :
  Forall2 only_updated views views' → idents views' = idents views.
Proof.
  apply same_idents. intros v v' ->. done.
Qed.

Lemma updated_once_idents views views' :
  Forall2 updated_once views views' → idents views' = idents views.
Proof.
  apply same_idents. by intros v v' (? & _).
Qed.

(** Only [show_waveforms] and [close_view] change which views are
    registered.  After any other call, whether it returned or raised, the
    same views are registered in the same order. *)
Theorem only_show_and_close_change_registered (c : call)
    (self : Session.t) :
  match c with
  | CallShowWaveforms | CallCloseView _ => True
  | _ => idents (registered (run c self)) = idents (registered self)
  end.
Proof.
  destruct c as [clusters|clusters|spikes|clusters group| | | | |view|];
    simpl; try done.
  - by destruct (select_frame clusters self) as (_ & _ & _ & _ & _ & H).
  - unfold after, Session.merge.
    destruct (clustering_call_shape (Clustering.merge clusters) self)
      as [(e & _ & ->)|(up & c' & views' & _ & -> & Hviews)]; [done|].
    by apply only_updated_idents.
  - unfold after, Session.split.
    destruct (clustering_call_shape (Clustering.split spikes) self)
      as [(e & _ & ->)|(up & c' & views' & _ & -> & Hviews)]; [done|].
    by apply only_updated_idents.
  - destruct (undo_frame self) as (_ & _ & Hviews & _).
    by apply only_updated_idents.
  - destruct (redo_frame self) as (_ & _ & Hviews & _).
    by apply only_updated_idents.
  - unfold after, Session._update_after_load.
    destruct (load_from_returns (Session._global_history self)
                (Session._view_manager self) (Session.model self)
                (Session.detached self ++ [Session.clustering self])
                (Session.next_view self))
      as (self' & -> & _ & _ & Hviews & _).
    by apply updated_once_idents.
  - unfold after, Session.cluster_colors, bind, Session.cluster_labels, gets.
    destruct (colors_frame (Clustering.cluster_labels
                              (Session.clustering self)) self)
      as (_ & Hvm & _).
    unfold registered. by rewrite Hvm.
Qed.

(** ** The select hook *)

(** [_update_waveforms_after_select] writes the waveforms before it looks up
    the masks.  When the waveforms of the selected spikes exist and a mask
    does not, it raises [IndexError] with the new waveforms already on the
    view, next to the masks and the spike labels of the selection before. *)
Theorem select_hook_fails_after_writing_waveforms (self : Session.t)
    (view : View.t) (waveforms : list (list Z)) :
  View.is_waveform_view view = true →
  fancy_index (BaseModel.waveforms (Session.model self))
    (Selector.selected_spikes (Session.selector self)) = Some waveforms →
  fancy_index (BaseModel.masks (Session.model self))
    (Selector.selected_spikes (Session.selector self)) = None →
  ∃ view',
    Session._update_waveforms_after_select self view
    = (Raise IndexError, view')
    ∧ View.waveforms (View.visual view') = Some waveforms
    ∧ View.masks (View.visual view') = View.masks (View.visual view)
    ∧ View.spike_labels (View.visual view')
      = View.spike_labels (View.visual view).
Proof.
  intros Hw Hwaveforms Hmasks.
  unfold Session._update_waveforms_after_select.
  rewrite Hw, Hwaveforms, Hmasks. simpl. by eexists.
Qed.

(** The failed selection of cluster 1 in the session without masks: its
    waveform view ends with the waveforms of spikes 2 and 3 and the empty
    labels it had. *)
Lemma select_hook_fails_after_writing_waveforms_witness :
  ∃ view view',
    registered short_session !! 1%nat = Some view
    ∧ Session._update_waveforms_after_select
        (Session.put_selector
           (Selector.mk [0; 0; 1; 1; 2] 100 [1]) short_session) view
      = (Raise IndexError, view')
    ∧ View.waveforms (View.visual view') = Some [[3]; [4]]
    ∧ View.spike_labels (View.visual view') = Some [].
Proof.
  assert (∃ view, registered short_session !! 1%nat = Some view
                  ∧ View.is_waveform_view view = true
                  ∧ View.spike_labels (View.visual view) = Some [])
    as (view & Hview & Hw & Hlabels)
    by (eexists; vm_compute; repeat split; reflexivity).
  destruct (select_hook_fails_after_writing_waveforms
              (Session.put_selector
                 (Selector.mk [0; 0; 1; 1; 2] 100 [1]) short_session)
              view [[3]; [4]] Hw)
    as (view' & Hrun & Hwaveforms & _ & Hl).
  - vm_compute. reflexivity.
  - vm_compute. reflexivity.
  - exists view, view'. rewrite Hl. done.
Defined.

(** ** Views across a reload *)

(** [_update_after_load] always returns with nothing selected in the new
    selector, while every registered view still carries the waveforms, masks
    and spike labels of the selection before: the load hook writes the
    partition, the metadata and the probe positions of a [WaveformView] and
    nothing else. *)
Theorem reload_keeps_the_shown_selection (self : Session.t) :
  ∃ self',
    Session._update_after_load self = (Ok tt, self')
    ∧ Selector.selected_clusters (Session.selector self') = []
    ∧ Selector.selected_spikes (Session.selector self') = []
    ∧ Forall2 (reloaded_view self') (registered self) (registered self').
Proof.
  unfold Session._update_after_load, Session.load_from.
  match goal with |- context [Session.refresh_views ?hook ?s] =>
    destruct (refresh_views_total hook s (load_hook_safe s))
      as [self' Hloop];
    pose proof (refresh_views_frame _ _ _ _ Hloop) as Hframe
  end.
  exists self'. split; [exact Hloop|].
  assert (Selector.selected_clusters (Session.selector self') = []) as Hsel
    by (by rewrite Hframe).
  split; [exact Hsel|]. split; [by apply nothing_selected_no_spikes|].
  unfold Session.refresh_views, Session.on_views in Hloop.
  match type of Hloop with context [for_each ?b ?l] =>
    destruct (for_each b l) as [o views'] eqn:Hrun end.
  inversion Hloop; subst o self'. clear Hloop Hframe Hsel.
  apply for_each_returns in Hrun. unfold registered. simpl.
  eapply Forall2_impl; [exact Hrun|].
  intros view view' Hbody. simpl in Hbody.
  unfold bind, when, ret, Session._update_waveforms_after_load, View.update,
    modify in Hbody.
  unfold reloaded_view.
  destruct (View.is_waveform_view view) eqn:Hw;
    rewrite ?Hw in Hbody; simpl in Hbody;
    inversion Hbody; subst view'; simpl; rewrite ?Hw; [|done].
  unfold Session.shown, Session.spike_clusters_of; simpl.
  rewrite bool_decide_eq_true_2 by done. done.
Qed.

(** Select clusters 1 and 2, then reload: nothing is selected any more, and
    the view still carries the labels of spikes 2, 3 and 4. *)
Lemma reload_keeps_the_shown_selection_witness :
  ∃ self' view',
    Session._update_after_load
      (after (Session.select [1; 2]) viewed_session) = (Ok tt, self')
    ∧ Selector.selected_spikes (Session.selector self') = []
    ∧ registered self' = [view']
    ∧ View.spike_labels (View.visual view') = Some [2; 3; 4]%nat.
Proof.
  destruct (reload_keeps_the_shown_selection
              (after (Session.select [1; 2]) viewed_session))
    as (self' & Hrun & _ & Hspikes & Hviews).
  assert (∃ view, registered (after (Session.select [1; 2]) viewed_session)
                  = [view]
                  ∧ View.spike_labels (View.visual view)
                    = Some [2; 3; 4]%nat) as (view & Hview & Hlabels)
    by (eexists; vm_compute; split; reflexivity).
  rewrite Hview in Hviews.
  inversion Hviews as [|v view' vs views' Hreloaded Hrest]; subst.
  inversion Hrest; subst.
  destruct Hreloaded as (_ & _ & Hl & _).
  exists self', view'. rewrite Hl. done.
Defined.
